(** * Orders, dishes and order lines of the cafe management application

    A shallow embedding of the order views of [orders/views.py], of the
    search form of [orders/forms.py] and of the order serializer of
    [api/serializers.py], over the three tables declared in
    [orders/models.py].

    Conventions of the embedding:
    - a [DecimalField(decimal_places=2)] holds an integer number of cents ([Z]);
    - the database runs in Django's default autocommit mode: every
      [save], [create] and [delete] is committed when it runs, so an
      exception raised later in a view does not undo the earlier writes.
      Views are therefore written in a state-and-error monad in which the
      store reached before an exception is kept. *)

From Stdlib Require Import String List ZArith Bool Lia.
From Stdlib Require Import Permutation.
Import ListNotations.
Open Scope string_scope.
Open Scope Z_scope.

(** ** Tables ([orders/models.py]) *)

(** [Dish]: a primary key and a price in cents. *)
Record Dish := mkDish { dish_id : nat; price : Z }.

(** [Order]: [total_price] is a stored column ([default=0.0]); [status] is
    a [CharField] whose declared choices are pending, ready and paid. *)
Record Order := mkOrder {
  order_id : nat;
  table_number : Z;
  status : string;
  total_price : Z
}.

(** [OrderDish]: the order line, two foreign keys and a quantity. *)
Record OrderDish := mkOrderDish {
  od_order : nat;
  od_dish : nat;
  quantity : nat
}.

(** The database: the three tables and the next value of the order
    primary-key sequence. *)
Record Store := mkStore {
  dishes : list Dish;
  orders : list Order;
  orderdishes : list OrderDish;
  next_order_id : nat
}.

Definition STATUS_CHOICES : list string := ["pending"; "ready"; "paid"].

Definition is_status_choice (s : string) : bool :=
  existsb (String.eqb s) STATUS_CHOICES.

Definition set_status (o : Order) (s : string) : Order :=
  mkOrder (order_id o) (table_number o) s (total_price o).

Definition set_total (o : Order) (t : Z) : Order :=
  mkOrder (order_id o) (table_number o) (status o) t.

Definition set_table (o : Order) (t : Z) : Order :=
  mkOrder (order_id o) t (status o) (total_price o).

Definition set_quantity (l : OrderDish) (q : nat) : OrderDish :=
  mkOrderDish (od_order l) (od_dish l) q.

(** ** Queries on the store *)

Definition find_order (s : Store) (pk : nat) : option Order :=
  find (fun o => Nat.eqb (order_id o) pk) (orders s).

Definition find_dish (s : Store) (pk : nat) : option Dish :=
  find (fun d => Nat.eqb (dish_id d) pk) (dishes s).

Definition line_is (o d : nat) (l : OrderDish) : bool :=
  Nat.eqb (od_order l) o && Nat.eqb (od_dish l) d.

(** [OrderDish.objects.filter(order=o, dish=d)] *)
Definition lines_for (s : Store) (o d : nat) : list OrderDish :=
  filter (line_is o d) (orderdishes s).

(** [order.orderdishes.all()] *)
Definition lines_of (s : Store) (o : nat) : list OrderDish :=
  filter (fun l => Nat.eqb (od_order l) o) (orderdishes s).

(** [order_dish.dish.price]: the foreign key is [on_delete=CASCADE], so a
    stored line always finds its dish; the [0] is never reached on such a
    store. *)
Definition dish_price (s : Store) (d : nat) : Z :=
  match find_dish s d with Some x => price x | None => 0 end.

(** [sum(order_dish.dish.price * order_dish.quantity
         for order_dish in order.orderdishes.all())] *)
Definition line_sum (s : Store) (o : nat) : Z :=
  fold_left (fun acc l => acc + dish_price s (od_dish l) * Z.of_nat (quantity l))
    (lines_of s o) 0.

(** ** Writes on the store *)

(** [order.save()] on a loaded instance writes every column of it. *)
Definition write_order (o : Order) (s : Store) : Store :=
  mkStore (dishes s)
    (map (fun x => if Nat.eqb (order_id x) (order_id o) then o else x) (orders s))
    (orderdishes s) (next_order_id s).

(** [order_dish.save()] on the row of [(order, dish)]. *)
Definition write_line (l : OrderDish) (s : Store) : Store :=
  mkStore (dishes s) (orders s)
    (map (fun x => if line_is (od_order l) (od_dish l) x then l else x)
       (orderdishes s))
    (next_order_id s).

(** [order_dish.delete()] on the row of [(order, dish)]. *)
Definition remove_line (l : OrderDish) (s : Store) : Store :=
  mkStore (dishes s) (orders s)
    (filter (fun x => negb (line_is (od_order l) (od_dish l) x)) (orderdishes s))
    (next_order_id s).

(** [OrderDish.objects.create(...)]: an INSERT appends a row. *)
Definition insert_line (l : OrderDish) (s : Store) : Store :=
  mkStore (dishes s) (orders s) (orderdishes s ++ [l]) (next_order_id s).

(** [Order.objects.create(...)] / first [order.save()] of a new instance:
    the row gets the next value of the primary-key sequence. *)
Definition insert_order (table : Z) (st : string) (total : Z) (s : Store)
  : Order * Store :=
  let o := mkOrder (next_order_id s) table st total in
  (o, mkStore (dishes s) (orders s ++ [o]) (orderdishes s) (S (next_order_id s))).

(** ** The request monad

    Errors a view can raise: [Http404] from [get_object_or_404],
    [MultipleObjectsReturned] from [get]/[get_or_create] on a duplicated
    row, [IntegrityError] from an INSERT violating a NOT NULL column,
    [AttributeError] from an attribute the model does not have,
    [ValidationError] from [serializer.is_valid(raise_exception=True)]
    (a 400 response) and [ValueError] from a lookup value the field
    cannot convert. *)
Inductive Err :=
  Http404 | MultipleObjectsReturned | IntegrityError | AttributeError
| ValidationError | ValueError.

Definition M (A : Type) : Type := Store -> (Err + A) * Store.

Definition ret {A} (a : A) : M A := fun s => (inr a, s).

Definition bind {A B} (m : M A) (k : A -> M B) : M B :=
  fun s => match m s with
           | (inl e, s') => (inl e, s')
           | (inr a, s') => k a s'
           end.

Definition raise {A} (e : Err) : M A := fun s => (inl e, s).

Definition gets {A} (f : Store -> A) : M A := fun s => (inr (f s), s).

Definition modify (f : Store -> Store) : M unit := fun s => (inr tt, f s).

Notation "x <- c1 ;; c2" := (bind c1 (fun x => c2))
  (at level 61, c1 at next level, right associativity).
Notation "c1 ;;; c2" := (bind c1 (fun _ => c2))
  (at level 61, right associativity).

(** [get_object_or_404(Order, pk=pk)] *)
Definition get_order_or_404 (pk : nat) : M Order :=
  fun s => match find_order s pk with
           | Some o => (inr o, s)
           | None => (inl Http404, s)
           end.

(** [get_object_or_404(Dish, id=dish_id)] *)
Definition get_dish_or_404 (pk : nat) : M Dish :=
  fun s => match find_dish s pk with
           | Some d => (inr d, s)
           | None => (inl Http404, s)
           end.

(** [get_object_or_404(OrderDish, order=order, dish=dish)] *)
Definition get_orderdish_or_404 (o d : nat) : M OrderDish :=
  fun s => match lines_for s o d with
           | [l] => (inr l, s)
           | [] => (inl Http404, s)
           | _ => (inl MultipleObjectsReturned, s)
           end.

(** [OrderDish.objects.get_or_create(order=order, dish=dish)]: the created
    row takes the field default [quantity=1]. *)
Definition get_or_create (o d : nat) : M (OrderDish * bool) :=
  fun s => match lines_for s o d with
           | [l] => (inr (l, false), s)
           | [] => let l := mkOrderDish o d 1 in (inr (l, true), insert_line l s)
           | _ => (inl MultipleObjectsReturned, s)
           end.

Definition save_order (o : Order) : M unit := modify (write_order o).
Definition save_line (l : OrderDish) : M unit := modify (write_line l).
Definition delete_line (l : OrderDish) : M unit := modify (remove_line l).

(** [if status:] on a value of [request.POST.get('status')] *)
Definition truthy_str (v : option string) : option string :=
  match v with
  | Some st => if String.eqb st "" then None else Some st
  | None => None
  end.

(** ** [OrderUpdateView.post] *)

(** The POST data the view reads: whether ['status_change'] is present,
    [request.POST.get('status')] and [request.POST.getlist('dishes')]. *)
Record UpdateRequest := mkUpdateRequest {
  status_change : bool;
  ur_status : option string;
  ur_dishes : list nat
}.

(** [for dish_id in dish_ids: ...] *)
Fixpoint add_dishes (order : Order) (dish_ids : list nat) : M unit :=
  match dish_ids with
  | [] => ret tt
  | did :: rest =>
      dish <- get_dish_or_404 did ;;
      r <- get_or_create (order_id order) (dish_id dish) ;;
      (let (order_dish, created) := r in
       if created then ret tt
       else save_line (set_quantity order_dish (S (quantity order_dish)))) ;;;
      add_dishes order rest
  end.

(** [if 'status_change' in request.POST: status = ...; if status:
    order.status = status; order.save()] *)
Definition status_step (req : UpdateRequest) (order : Order) : M Order :=
  if status_change req then
    match truthy_str (ur_status req) with
    | Some st => let o := set_status order st in save_order o ;;; ret o
    | None => ret order
    end
  else ret order.

Definition order_update_post (pk : nat) (req : UpdateRequest) : M unit :=
  order <- get_order_or_404 pk ;;
  order <- status_step req order ;;
  add_dishes order (ur_dishes req) ;;;
  t <- gets (fun s => line_sum s (order_id order)) ;;
  save_order (set_total order t).

(** ** [OrderRemoveDishView.post] *)

(** [request.POST.get('dish_id')] after [if dish_id:]: [None] when the
    field is missing or empty. *)
Definition order_remove_dish_post (order_id_ : nat) (dish_id_ : option nat) : M unit :=
  order <- get_order_or_404 order_id_ ;;
  match dish_id_ with
  | None => ret tt
  | Some did =>
      dish <- get_dish_or_404 did ;;
      order_dish <- get_orderdish_or_404 (order_id order) (dish_id dish) ;;
      (if Nat.ltb 1 (quantity order_dish)
       then save_line (set_quantity order_dish (Nat.pred (quantity order_dish)))
       else delete_line order_dish) ;;;
      t <- gets (fun s => line_sum s (order_id order)) ;;
      save_order (set_total order t)
  end.

(** ** [OrderCreateView.post] *)

(** The submitted [OrderForm] fields [table_number], [status] and [items]
    (the submitted dish primary keys). *)
Record CreateForm := mkCreateForm {
  cf_table : option Z;
  cf_status : string;
  cf_items : list nat
}.

(** [form.is_valid()]: [table_number] is required; [status] is a required
    choice field over [STATUS_CHOICES]; [items] is a required
    [ModelMultipleChoiceField] over [Dish.objects.all()], every submitted
    key must name a dish. *)
Definition create_form_valid (s : Store) (f : CreateForm) : bool :=
  match cf_table f with Some _ => true | None => false end
  && is_status_choice (cf_status f)
  && negb (match cf_items f with [] => true | _ => false end)
  && forallb (fun pk => match find_dish s pk with Some _ => true | None => false end)
       (cf_items f).

(** [form.cleaned_data['items']]: the queryset
    [Dish.objects.filter(pk__in=...)], each dish once, in table order. *)
Definition cleaned_items (s : Store) (f : CreateForm) : list Dish :=
  filter (fun d => existsb (Nat.eqb (dish_id d)) (cf_items f)) (dishes s).

(** [order = form.save(commit=False); order.save()]: an unsaved [Order]
    with the form's fields and the column default [total_price=0]. *)
Definition save_new_order (table : Z) (st : string) (total : Z) : M Order :=
  fun s => let (o, s') := insert_order table st total s in (inr o, s').

Definition create_line (l : OrderDish) : M unit := modify (insert_line l).

Fixpoint create_lines (order : Order) (ds : list Dish) : M unit :=
  match ds with
  | [] => ret tt
  | dish :: rest =>
      create_line (mkOrderDish (order_id order) (dish_id dish) 1) ;;;
      create_lines order rest
  end.

Definition order_create_post (f : CreateForm) : M unit :=
  fun s =>
    if create_form_valid s f then
      (order <- save_new_order (match cf_table f with Some t => t | None => 0 end)
                  (cf_status f) 0 ;;
       create_lines order (cleaned_items s f)) s
    else ret tt s.

(** ** [OrderSerializer] ([api/serializers.py])

    The nested [items] field is [OrderDishSerializer(source='orderdish_set')]
    whose [dish] is [read_only=True] and whose [id] is the read-only
    primary key: the validated data of an item holds its [quantity] only.
    The model declares the reverse accessor of [OrderDish.order] as
    [related_name='orderdishes'], so [Order] has no attribute
    [orderdish_set]. *)

(** Field validation shared by the API actions. [total_price] is
    [DecimalField(max_digits=10, decimal_places=2)]: at most eight digits
    before the point, so in cents an absolute value below [10^10]. *)
Definition total_price_valid (t : Z) : bool := Z.ltb (Z.abs t) (10 ^ 10).

Definition opt_valid {A} (p : A -> bool) (v : option A) : bool :=
  match v with Some x => p x | None => true end.

Definition is_given {A} (v : option A) : bool :=
  match v with Some _ => true | None => false end.

(** [serializer.data] on a saved order: the [items] field reads
    [instance.orderdish_set], which [Order] does not have; the field is
    required, so [get_attribute] re-raises the [AttributeError]. *)
Definition serializer_data : M unit := raise AttributeError.

(** The data of a POST to the API; [None] is a field not sent. *)
Record ApiCreateData := mkApiCreateData {
  ac_table : option Z;
  ac_status : option string;
  ac_total : option Z;
  ac_items : option (list nat)
}.

(** [is_valid] on a creation: [table_number] (no model default) and
    [items] (neither read-only nor optional) are required; [status] must be
    a choice and [total_price] fit its [DecimalField]. *)
Definition api_create_valid (v : ApiCreateData) : bool :=
  is_given (ac_table v) && opt_valid is_status_choice (ac_status v) &&
  opt_valid total_price_valid (ac_total v) && is_given (ac_items v).

(** [OrderSerializer.create]: [Order.objects.create] on the validated data
    then [OrderDish.objects.create(order=order, quantity=q)] per item,
    whose INSERT leaves the non-null [dish_id] column empty. *)
Definition create_item_without_dish (order : Order) (q : nat) : M unit :=
  raise IntegrityError.

Fixpoint api_create_items (order : Order) (items : list nat) : M unit :=
  match items with
  | [] => ret tt
  | q :: rest => create_item_without_dish order q ;;; api_create_items order rest
  end.

(** [OrderViewSet.create] ([CreateModelMixin.create]): validation,
    [perform_create] (the serializer's [create]), then [serializer.data]
    for the 201 response. *)
Definition api_create (v : ApiCreateData) : M unit :=
  fun s =>
    if api_create_valid v then
      (order <- save_new_order (match ac_table v with Some t => t | None => 0 end)
                  (match ac_status v with Some st => st | None => "pending" end)
                  (match ac_total v with Some t => t | None => 0 end) ;;
       api_create_items order (match ac_items v with Some l => l | None => [] end) ;;;
       serializer_data) s
    else raise ValidationError s.

(** The data of a PUT ([au_partial] false) or PATCH ([au_partial] true)
    to the API; [None] is a field not sent. *)
Record ApiUpdateData := mkApiUpdateData {
  au_partial : bool;
  au_table : option Z;
  au_status : option string;
  au_total : option Z;
  au_items : option (list nat)
}.

(** [is_valid] on an update: a PUT requires [table_number] and [items],
    a PATCH only the fields it sends; [status] and [total_price] are
    checked as on a creation. *)
Definition api_update_valid (v : ApiUpdateData) : bool :=
  (au_partial v || (is_given (au_table v) && is_given (au_items v))) &&
  opt_valid is_status_choice (au_status v) && opt_valid total_price_valid (au_total v).

(** [OrderViewSet.update] / [partial_update] ([UpdateModelMixin.update]):
    [get_object()], validation, [OrderSerializer.update], then
    [serializer.data] for the response. *)
Definition api_update (pk : nat) (v : ApiUpdateData) : M unit :=
  instance <- get_order_or_404 pk ;;
  if api_update_valid v then
    let instance := set_table instance
                      (match au_table v with Some t => t | None => table_number instance end) in
    let instance := set_status instance
                      (match au_status v with Some st => st | None => status instance end) in
    save_order instance ;;;
    (match au_items v with
     | None => ret tt
     | Some _ => raise AttributeError   (* instance.orderdish_set *)
     end) ;;;
    serializer_data
  else raise ValidationError.

(** ** [revenue_calculation] *)

(** [aggregate(Sum(...))]: SQL [SUM] is [NULL] over no rows. *)
Definition aggregate_sum (xs : list Z) : option Z :=
  match xs with
  | [] => None
  | x :: rest => Some (fold_left Z.add rest x)
  end.

(** [paid_orders = Order.objects.filter(status='paid')] *)
Definition paid_orders (s : Store) : list Order :=
  filter (fun o => String.eqb (status o) "paid") (orders s).

(** [paid_orders.aggregate(Sum('total_price'))['total_price__sum'] or 0] *)
Definition revenue_calculation (s : Store) : Z :=
  match aggregate_sum (map total_price (paid_orders s)) with
  | Some z => if Z.eqb z 0 then 0 else z
  | None => 0
  end.

(** ** [order_search] and [OrderSearchForm] *)

(** A submitted [table_number] text: empty, an integer, or a text that is
    not an integer. *)
Inductive TableInput := TEmpty | TInt (z : Z) | TJunk.

(** [request.GET]: each field is missing ([None]) or submitted. *)
Record SearchQuery := mkSearchQuery {
  sq_table : option TableInput;
  sq_status : option string
}.

(** [OrderSearchForm(request.GET or None).is_valid()]: an empty query
    gives an unbound form, which is not valid; otherwise [table_number]
    must be empty or an integer and [status] one of the choices
    [''], pending, ready, paid. *)
Definition search_form_valid (q : SearchQuery) : bool :=
  match sq_table q, sq_status q with
  | None, None => false
  | _, _ =>
      match sq_table q with Some TJunk => false | _ => true end
      && match sq_status q with
         | Some st => String.eqb st "" || is_status_choice st
         | None => true
         end
  end.

(** [cleaned_data.get('table_number')] and [cleaned_data.get('status')] *)
Definition cleaned_table (q : SearchQuery) : option Z :=
  match sq_table q with Some (TInt z) => Some z | _ => None end.

Definition cleaned_status (q : SearchQuery) : string :=
  match sq_status q with Some st => st | None => "" end.

(** [if table_number:] is false for [None] and for [0]; [if status:] is
    false for the empty string. *)
Definition order_search (q : SearchQuery) (s : Store) : list Order :=
  let os := orders s in
  if search_form_valid q then
    let os := match cleaned_table q with
              | Some tn => if Z.eqb tn 0 then os
                           else filter (fun o => Z.eqb (table_number o) tn) os
              | None => os
              end in
    let st := cleaned_status q in
    if String.eqb st "" then os
    else filter (fun o => String.eqb (status o) st) os
  else os.

(** ** [OrderDeleteView.get] *)

(** [order.delete()]: the order's row goes, and with it (foreign key
    [on_delete=CASCADE]) every order line pointing to it. *)
Definition delete_order (o : Order) (s : Store) : Store :=
  mkStore (dishes s)
    (filter (fun x => negb (Nat.eqb (order_id x) (order_id o))) (orders s))
    (filter (fun l => negb (Nat.eqb (od_order l) (order_id o))) (orderdishes s))
    (next_order_id s).

Definition order_delete_get (pk : nat) : M unit :=
  order <- get_order_or_404 pk ;;
  modify (delete_order order).

(** ** [OrderListView.post] *)

(** The same [OrderForm] as the create view. [form.save()] with
    [commit=True] inserts the order with the column default
    [total_price=0] (and writes the [items] many-to-many rows, a table this
    store does not hold); [order.save()] then writes the same row again.
    No order line is created. An invalid form re-renders the page. *)
Definition order_list_post (f : CreateForm) : M unit :=
  fun s =>
    if create_form_valid s f then
      (order <- save_new_order (match cf_table f with Some t => t | None => 0 end)
                  (cf_status f) 0 ;;
       save_order order) s
    else ret tt s.

(** ** [OrderViewSet.search] ([api/views.py]) *)




(** ** Notions used by the properties *)

(** The key of the uniqueness constraint on order lines. *)
Definition key (l : OrderDish) : nat * nat := (od_order l, od_dish l).

(** [Uniq]: at most one order line per (order, dish) pair. *)
Definition Uniq (s : Store) : Prop := NoDup (map key (orderdishes s)).

(** The order as the status step leaves it in memory, and the store it
    leaves behind. *)
Definition applied_status (req : UpdateRequest) (o : Order) : Order :=
  if status_change req then
    match truthy_str (ur_status req) with Some st => set_status o st | None => o end
  else o.

Definition status_store (req : UpdateRequest) (o : Order) (s : Store) : Store :=
  if status_change req then
    match truthy_str (ur_status req) with
    | Some st => write_order (set_status o st) s
    | None => s
    end
  else s.

(** [stable P m]: running [m] from a store satisfying [P] ends (normally
    or by an exception) in a store satisfying [P]. *)
Definition stable (P : Store -> Prop) {A} (m : M A) : Prop :=
  forall s, P s -> P (snd (m s)).

(** Well-formed database: order keys are below the primary-key sequence,
    every line points to such an order (foreign key), dish keys are
    distinct (primary key) and lines are unique per (order, dish). *)
Definition WF (s : Store) : Prop :=
  Forall (fun i => (i < next_order_id s)%nat) (map order_id (orders s)) /\
  Forall (fun k => (fst k < next_order_id s)%nat) (map key (orderdishes s)) /\
  NoDup (map dish_id (dishes s)) /\
  Uniq s.

(** The operations that change an existing order, and the order they
    change. *)
Inductive Mutation :=
| MUpdate (pk : nat) (req : UpdateRequest)
| MRemove (order_id_ : nat) (dish_id_ : option nat)
| MApiUpdate (pk : nat) (v : ApiUpdateData).

Definition run_mutation (m : Mutation) : M unit :=
  match m with
  | MUpdate pk req => order_update_post pk req
  | MRemove oid did => order_remove_dish_post oid did
  | MApiUpdate pk v => api_update pk v
  end.

Definition mutation_target (m : Mutation) : nat :=
  match m with MUpdate pk _ | MRemove pk _ | MApiUpdate pk _ => pk end.

(** The stored [total_price] of order [pk] is the sum over its lines. *)
Definition total_in_sync (s : Store) (pk : nat) : Prop :=
  forall o, find_order s pk = Some o -> total_price o = line_sum s pk.

(** A sample database: a pizza at 10.00 and a salad at 5.00. *)
Definition pizza : Dish := mkDish 1 1000.
Definition salad : Dish := mkDish 2 500.
Definition catalog : Store := mkStore [pizza; salad] [] [] 1.

(** An order for table 3 created through [OrderCreateView] with both
    dishes. *)
Definition create_form_3 : CreateForm := mkCreateForm (Some 3) "pending" [1%nat; 2%nat].
Definition after_create : Store := snd (order_create_post create_form_3 catalog).

(** The same order after an update request with no change at all, which
    recomputes its total. *)
Definition after_sync : Store :=
  snd (order_update_post 1 (mkUpdateRequest false None []) after_create).

(** A second pizza added to that order. *)
Definition after_second_pizza : Store :=
  snd (order_update_post 1 (mkUpdateRequest false None [1%nat]) after_sync).

(** An order for table 5 created through the API, with no lines. *)
Definition api_order_store : Store :=
  snd (api_create (mkApiCreateData (Some 5) None None (Some [])) catalog).

(** Orders for tables 0 and 5. *)
Definition search_store : Store :=
  mkStore [pizza; salad]
    [mkOrder 1 0 "pending" 0; mkOrder 2 5 "paid" 1500] [] 3.

(** Three orders: one pending, two paid with totals 15.00 and 22.50. *)
Definition revenue_store : Store :=
  mkStore [pizza; salad]
    [mkOrder 1 3 "pending" 1500; mkOrder 2 4 "paid" 1500; mkOrder 3 5 "paid" 2250] [] 4.

(** The number of units of dish [d] in order [o]: the quantities summed
    over the matching lines. *)
Definition line_qty (s : Store) (o d : nat) : nat :=
  list_sum (map quantity (lines_for s o d)).

(** Two orders, the first with two pizzas and one salad. *)
Definition two_orders : Store :=
  mkStore [pizza; salad]
    [mkOrder 1 3 "ready" 2500; mkOrder 2 0 "pending" 0]
    [mkOrderDish 1 1 2; mkOrderDish 1 2 1; mkOrderDish 2 2 1] 3.

(** What an order adds to [revenue_calculation]: its stored total when
    it is paid, nothing otherwise. *)
Definition paid_total (o : Order) : Z :=
  if String.eqb (status o) "paid" then total_price o else 0.

(** * Properties *)

(** ** Running the views step by step *)

Lemma status_step_eq req o s :
  status_step req o s = (inr (applied_status req o), status_store req o s).
Proof.
  unfold status_step, applied_status, status_store.
  destruct (status_change req); [destruct (truthy_str (ur_status req))|]; reflexivity.
Qed.

Lemma order_update_post_eq pk req s :
  order_update_post pk req s =
  match find_order s pk with
  | None => (inl Http404, s)
  | Some o =>
      let o' := applied_status req o in
      match add_dishes o' (ur_dishes req) (status_store req o s) with
      | (inl e, s2) => (inl e, s2)
      | (inr _, s2) => (inr tt, write_order (set_total o' (line_sum s2 (order_id o'))) s2)
      end
  end.
Proof.
  unfold order_update_post, bind at 1, get_order_or_404.
  destruct (find_order s pk) as [o|]; [|reflexivity].
  unfold bind at 1. rewrite status_step_eq.
  unfold bind at 1.
  destruct (add_dishes _ _ _) as [[e|u] s2]; reflexivity.
Qed.

Lemma order_remove_dish_post_eq oid did s :
  order_remove_dish_post oid (Some did) s =
  match find_order s oid with
  | None => (inl Http404, s)
  | Some o =>
      match find_dish s did with
      | None => (inl Http404, s)
      | Some d =>
          match lines_for s (order_id o) (dish_id d) with
          | [] => (inl Http404, s)
          | [l] =>
              let s1 := if Nat.ltb 1 (quantity l)
                        then write_line (set_quantity l (Nat.pred (quantity l))) s
                        else remove_line l s in
              (inr tt, write_order (set_total o (line_sum s1 (order_id o))) s1)
          | _ => (inl MultipleObjectsReturned, s)
          end
      end
  end.
Proof.
  unfold order_remove_dish_post, bind, get_order_or_404.
  destruct (find_order s oid) as [o|]; [|reflexivity].
  unfold get_dish_or_404. destruct (find_dish s did) as [d|]; [|reflexivity].
  unfold get_orderdish_or_404.
  destruct (lines_for s (order_id o) (dish_id d)) as [|l [|l' rest]]; try reflexivity.
  destruct (Nat.ltb 1 (quantity l)); reflexivity.
Qed.

(** ** Lookups *)

Lemma find_order_some s pk o :
  find_order s pk = Some o -> order_id o = pk /\ In o (orders s).
Proof.
  unfold find_order. intros H. apply find_some in H as [Hin Heq].
  apply Nat.eqb_eq in Heq. auto.
Qed.

Lemma find_dish_some s pk d :
  find_dish s pk = Some d -> dish_id d = pk /\ In d (dishes s).
Proof.
  unfold find_dish. intros H. apply find_some in H as [Hin Heq].
  apply Nat.eqb_eq in Heq. auto.
Qed.

Lemma find_order_write s o :
  (exists x, In x (orders s) /\ order_id x = order_id o) ->
  find_order (write_order o s) (order_id o) = Some o.
Proof.
  destruct s as [ds os ls n]. unfold find_order, write_order; simpl.
  intros [x [Hin Hid]]. induction os as [|y os IH]; [destruct Hin|].
  simpl. destruct (Nat.eqb (order_id y) (order_id o)) eqn:E.
  - rewrite Nat.eqb_refl. reflexivity.
  - rewrite E. destruct Hin as [<-|Hin].
    + rewrite Hid, Nat.eqb_refl in E. discriminate.
    + apply IH; exact Hin.
Qed.

Lemma find_order_write_pk s o pk :
  order_id o = pk -> (exists x, In x (orders s) /\ order_id x = pk) ->
  find_order (write_order o s) pk = Some o.
Proof. intros <-. apply find_order_write. Qed.

Lemma line_sum_ext s1 s k :
  dishes s1 = dishes s -> orderdishes s1 = orderdishes s -> line_sum s1 k = line_sum s k.
Proof.
  intros Hd Hl. unfold line_sum, lines_of, dish_price, find_dish. rewrite Hd, Hl. reflexivity.
Qed.

Lemma write_order_ids s o :
  map order_id (orders (write_order o s)) = map order_id (orders s).
Proof.
  destruct s as [ds os ls n]; simpl. induction os as [|y os IH]; simpl; [reflexivity|].
  rewrite IH. destruct (Nat.eqb (order_id y) (order_id o)) eqn:E; [|reflexivity].
  apply Nat.eqb_eq in E. rewrite E. reflexivity.
Qed.

Lemma in_ids_exists s pk :
  In pk (map order_id (orders s)) <-> exists x, In x (orders s) /\ order_id x = pk.
Proof.
  rewrite in_map_iff. split; intros [x [H1 H2]]; eauto.
Qed.

(** ** Properties kept by a computation *)

Section Stable.
Variable P : Store -> Prop.

Lemma stable_ret {A} (a : A) : stable P (ret a).
Proof. intros s H; exact H. Qed.

Lemma stable_raise {A} e : stable P (@raise A e).
Proof. intros s H; exact H. Qed.

Lemma stable_gets {A} (f : Store -> A) : stable P (gets f).
Proof. intros s H; exact H. Qed.

Lemma stable_modify f : (forall s, P s -> P (f s)) -> stable P (modify f).
Proof. intros Hf s H; exact (Hf s H). Qed.

Lemma stable_bind {A B} (m : M A) (k : A -> M B) :
  stable P m -> (forall a, stable P (k a)) -> stable P (bind m k).
Proof.
  intros Hm Hk s Hs. unfold bind. specialize (Hm s Hs).
  destruct (m s) as [[e|a] s']; simpl in *; [exact Hm|].
  apply Hk; exact Hm.
Qed.

Lemma stable_get_order pk : stable P (get_order_or_404 pk).
Proof. intros s H; unfold get_order_or_404; destruct (find_order s pk); exact H. Qed.

Lemma stable_get_dish pk : stable P (get_dish_or_404 pk).
Proof. intros s H; unfold get_dish_or_404; destruct (find_dish s pk); exact H. Qed.

Lemma stable_get_orderdish o d : stable P (get_orderdish_or_404 o d).
Proof.
  intros s H; unfold get_orderdish_or_404.
  destruct (lines_for s o d) as [|? [|? ?]]; exact H.
Qed.

Lemma stable_get_or_create o d :
  (forall s, lines_for s o d = [] -> P s -> P (insert_line (mkOrderDish o d 1) s)) ->
  stable P (get_or_create o d).
Proof.
  intros Hins s H; unfold get_or_create.
  destruct (lines_for s o d) as [|? [|? ?]] eqn:E; simpl; auto.
Qed.

Hypothesis write_line_P : forall l s, P s -> P (write_line l s).

Lemma stable_add_dishes o ids :
  (forall s d, lines_for s (order_id o) d = [] -> P s ->
               P (insert_line (mkOrderDish (order_id o) d 1) s)) ->
  stable P (add_dishes o ids).
Proof.
  intros Hins. induction ids as [|did ids IH]; simpl.
  - apply stable_ret.
  - apply stable_bind; [apply stable_get_dish|intros dish].
    apply stable_bind; [apply stable_get_or_create; auto|intros [l created]].
    apply stable_bind; [|intros _; exact IH].
    destruct created; [apply stable_ret|apply stable_modify; auto].
Qed.
End Stable.

(** [add_dishes] writes order lines only. *)
Lemma add_dishes_frame o ids s :
  orders (snd (add_dishes o ids s)) = orders s /\
  dishes (snd (add_dishes o ids s)) = dishes s /\
  next_order_id (snd (add_dishes o ids s)) = next_order_id s.
Proof.
  apply (stable_add_dishes
           (fun s' => orders s' = orders s /\ dishes s' = dishes s /\
                      next_order_id s' = next_order_id s)); auto.
Qed.

(** ** Order-line keys *)

Lemma write_line_keys l s :
  map key (orderdishes (write_line l s)) = map key (orderdishes s).
Proof.
  destruct s as [ds os ls n]; simpl. induction ls as [|x ls IH]; simpl; [reflexivity|].
  rewrite IH. destruct (line_is (od_order l) (od_dish l) x) eqn:E; [|reflexivity].
  unfold line_is in E. apply andb_prop in E as [E1 E2].
  apply Nat.eqb_eq in E1, E2. unfold key. rewrite E1, E2. reflexivity.
Qed.

Lemma line_is_key o d l : line_is o d l = true <-> key l = (o, d).
Proof.
  unfold line_is, key. rewrite andb_true_iff, !Nat.eqb_eq.
  split; [intros [-> ->]; reflexivity|intros H; inversion H; auto].
Qed.

Lemma lines_for_nil s o d :
  lines_for s o d = [] <-> ~ In (o, d) (map key (orderdishes s)).
Proof.
  unfold lines_for. induction (orderdishes s) as [|x ls IH]; simpl.
  - split; auto.
  - destruct (line_is o d x) eqn:E.
    + apply line_is_key in E. split; [discriminate|].
      intros H. exfalso. apply H. left. exact E.
    + rewrite IH. split.
      * intros H [H'|H']; [|exact (H H')].
        apply line_is_key in H'. congruence.
      * intros H H'. apply H. right. exact H'.
Qed.

Lemma Uniq_write_line l s : Uniq s -> Uniq (write_line l s).
Proof. unfold Uniq. rewrite write_line_keys. auto. Qed.

Lemma Uniq_insert o d s :
  lines_for s o d = [] -> Uniq s -> Uniq (insert_line (mkOrderDish o d 1) s).
Proof.
  unfold Uniq, insert_line. simpl. rewrite map_app. simpl.
  intros Hnil Hu. rewrite lines_for_nil in Hnil.
  apply NoDup_app; [exact Hu|constructor; [auto|constructor]|].
  intros a Ha [Heq|[]]. unfold key in Heq; simpl in Heq. subst a. contradiction.
Qed.

Lemma Uniq_add_dishes o ids s : Uniq s -> Uniq (snd (add_dishes o ids s)).
Proof.
  apply stable_add_dishes; [apply Uniq_write_line|].
  intros s' d H. apply Uniq_insert; exact H.
Qed.

(** ** The stored total *)

Lemma applied_status_id req o : order_id (applied_status req o) = order_id o.
Proof.
  unfold applied_status. destruct (status_change req); [destruct (truthy_str _)|]; reflexivity.
Qed.

Lemma status_store_ids req o s :
  map order_id (orders (status_store req o s)) = map order_id (orders s).
Proof.
  unfold status_store. destruct (status_change req); [destruct (truthy_str _)|];
    try reflexivity; apply write_order_ids.
Qed.

Lemma status_store_lines req o s :
  orderdishes (status_store req o s) = orderdishes s /\
  dishes (status_store req o s) = dishes s.
Proof.
  unfold status_store. destruct (status_change req); [destruct (truthy_str _)|]; auto.
Qed.

(** The update view, when it returns its redirect, has stored for the
    order the sum over the order's lines as they are at the end. *)
Lemma order_update_post_total pk req s s' :
  order_update_post pk req s = (inr tt, s') ->
  exists o, find_order s pk = Some o /\
    find_order s' pk = Some (set_total (applied_status req o) (line_sum s' pk)) /\
    orderdishes s' =
      orderdishes (snd (add_dishes (applied_status req o) (ur_dishes req)
                          (status_store req o s))).
Proof.
  rewrite order_update_post_eq. destruct (find_order s pk) as [o|] eqn:Ef; [|discriminate].
  destruct (find_order_some _ _ _ Ef) as [Hid Hin].
  assert (Hfr := add_dishes_frame (applied_status req o) (ur_dishes req) (status_store req o s)).
  destruct (add_dishes (applied_status req o) (ur_dishes req) (status_store req o s))
    as [[e|u] s2] eqn:Ea; [cbv zeta; rewrite Ea; discriminate|].
  simpl in Hfr. destruct Hfr as [Hos _]. cbv zeta. rewrite Ea.
  intros H. inversion H; subst s'. clear H.
  exists o. split; [reflexivity|]. split; [|rewrite Ea; reflexivity].
  rewrite applied_status_id, Hid.
  set (o2 := set_total (applied_status req o) (line_sum s2 pk)).
  change (line_sum (write_order o2 s2) pk) with (line_sum s2 pk).
  assert (Ho2 : order_id o2 = pk) by (simpl; rewrite applied_status_id; exact Hid).
  rewrite <- Ho2 at 1. apply find_order_write. apply in_ids_exists.
  simpl. rewrite applied_status_id, Hid, Hos, status_store_ids.
  apply in_map_iff. exists o; auto.
Qed.

Lemma order_remove_dish_post_total oid did s s' :
  order_remove_dish_post oid (Some did) s = (inr tt, s') ->
  exists o, find_order s oid = Some o /\
    find_order s' oid = Some (set_total o (line_sum s' oid)).
Proof.
  rewrite order_remove_dish_post_eq.
  destruct (find_order s oid) as [o|] eqn:Ef; [|discriminate].
  destruct (find_order_some _ _ _ Ef) as [Hid Hin].
  destruct (find_dish s did) as [d|]; [|discriminate].
  destruct (lines_for s (order_id o) (dish_id d)) as [|l [|l' rest]]; try discriminate.
  set (s1 := if Nat.ltb 1 (quantity l)
             then write_line (set_quantity l (Nat.pred (quantity l))) s
             else remove_line l s).
  assert (Hos : orders s1 = orders s) by (unfold s1; destruct (Nat.ltb 1 (quantity l)); reflexivity).
  intros H. inversion H; subst s'. clear H.
  exists o. split; [reflexivity|].
  set (o2 := set_total o (line_sum s1 (order_id o))).
  change (line_sum (write_order o2 s1) oid) with (line_sum s1 oid).
  rewrite <- Hid. apply (find_order_write s1 o2).
  exists o. rewrite Hos. auto.
Qed.

(** *** C1 *)

(** C1 (as stated, refuted): the claim that every mutation of an order
    (adding dishes, removing a unit, changing the status, the API update)
    leaves [total_price] equal to the sum of price times quantity over the
    order's lines. An update request whose second dish id names no dish
    fails after the first dish's line was written, leaving the stored
    total behind the lines; and the API update, which never recomputes,
    keeps the total 0 of an order created through [OrderCreateView] with
    two dishes. *)
Lemma C1_total_not_maintained :
  total_in_sync after_sync 1 /\
  ~ total_in_sync
      (snd (run_mutation (MUpdate 1 (mkUpdateRequest false None [1%nat; 99%nat])) after_sync)) 1 /\
  ~ total_in_sync
      (snd (run_mutation (MApiUpdate 1 (mkApiUpdateData true None (Some "paid") None None)) after_create)) 1.
Proof.
  split; [|split].
  - intros o H. vm_compute in H. inversion H. vm_compute. reflexivity.
  - intros H.
    assert (E : find_order (snd (run_mutation
                  (MUpdate 1 (mkUpdateRequest false None [1%nat; 99%nat])) after_sync)) 1
                = Some (mkOrder 1 3 "pending" 1500)) by (vm_compute; reflexivity).
    specialize (H _ E). vm_compute in H. discriminate H.
  - intros H.
    assert (E : find_order (snd (run_mutation
                  (MApiUpdate 1 (mkApiUpdateData true None (Some "paid") None None)) after_create)) 1
                = Some (mkOrder 1 3 "paid" 0)) by (vm_compute; reflexivity).
    specialize (H _ E). vm_compute in H. discriminate H.
Qed.

(** *** C10 *)

(** C10: an update request carrying ['status_change'] and no dish ids
    is not a frame on [total_price]: it leaves the order lines as they
    are, sets the status when one is given, and overwrites the stored
    total with the sum over the order's current lines, whatever the total
    was before. *)
Theorem C10_status_change_recomputes_total s pk o st :
  find_order s pk = Some o ->
  exists s', order_update_post pk (mkUpdateRequest true st []) s = (inr tt, s') /\
    orderdishes s' = orderdishes s /\
    find_order s' pk =
      Some (mkOrder pk (table_number o)
              (match truthy_str st with Some x => x | None => status o end)
              (line_sum s pk)).
Proof.
  intros Hf. destruct (find_order_some _ _ _ Hf) as [Hid Hin].
  rewrite order_update_post_eq, Hf. cbv zeta. cbn [add_dishes ret ur_dishes].
  eexists. split; [reflexivity|].
  destruct (status_store_lines (mkUpdateRequest true st []) o s) as [Hl Hd].
  split; [exact Hl|].
  rewrite applied_status_id, Hid, (line_sum_ext _ _ _ Hd Hl).
  replace (mkOrder pk (table_number o)
             (match truthy_str st with Some x => x | None => status o end) (line_sum s pk))
    with (set_total (applied_status (mkUpdateRequest true st []) o) (line_sum s pk))
    by (unfold applied_status, set_total, set_status; simpl;
        destruct (truthy_str st); rewrite <- Hid; reflexivity).
  apply find_order_write_pk.
  - simpl. rewrite applied_status_id. exact Hid.
  - exists (applied_status (mkUpdateRequest true st []) o). split.
    + unfold status_store, applied_status; simpl. destruct (truthy_str st) as [x|]; [|exact Hin].
      simpl. apply in_map_iff. exists o. split; [|exact Hin].
      rewrite Nat.eqb_refl. reflexivity.
    + rewrite applied_status_id. exact Hid.
Qed.

Lemma C10_status_change_recomputes_total_witness :
  find_order after_create 1 = Some (mkOrder 1 3 "pending" 0) /\
  line_sum after_create 1 = 1500 /\
  exists s', order_update_post 1 (mkUpdateRequest true (Some "paid") []) after_create = (inr tt, s') /\
    orderdishes s' = orderdishes after_create /\
    find_order s' 1 =
      Some (mkOrder 1 3 (match truthy_str (Some "paid") with Some x => x | None => "pending" end)
              (line_sum after_create 1)).
Proof.
  split; [vm_compute; reflexivity|]. split; [vm_compute; reflexivity|].
  exact (C10_status_change_recomputes_total after_create 1%nat (mkOrder 1 3 "pending" 0)
           (Some "paid") (eq_refl _)).
Defined.

(** ** Well-formedness and uniqueness of order lines *)

Lemma NoDup_map_filter {A B} (f : A -> B) (p : A -> bool) l :
  NoDup (map f l) -> NoDup (map f (filter p l)).
Proof.
  induction l as [|x l IH]; simpl; [auto|].
  intros H. inversion H as [|? ? Hx Hl]; subst.
  destruct (p x); simpl; [|auto].
  constructor; [|auto].
  intros Hin. apply Hx. apply in_map_iff in Hin as [y [Hy Hin]].
  apply filter_In in Hin as [Hin _]. rewrite <- Hy. apply in_map. exact Hin.
Qed.

Lemma NoDup_map_pair (n : nat) (l : list nat) :
  NoDup l -> NoDup (map (fun i => (n, i)) l).
Proof.
  induction l as [|x l IH]; simpl; intros H; [constructor|].
  inversion H as [|? ? Hx Hl]; subst. constructor; [|auto].
  intros Hin. apply in_map_iff in Hin as [y [Hy Hin]]. inversion Hy; subst. contradiction.
Qed.

Lemma WF_write_order o s : WF s -> WF (write_order o s).
Proof.
  unfold WF, Uniq. rewrite write_order_ids. simpl. auto.
Qed.

Lemma WF_write_line l s : WF s -> WF (write_line l s).
Proof.
  unfold WF, Uniq. rewrite write_line_keys. simpl. auto.
Qed.

Lemma WF_insert_line o d s :
  (o < next_order_id s)%nat -> lines_for s o d = [] -> WF s ->
  WF (insert_line (mkOrderDish o d 1) s).
Proof.
  intros Ho Hnil [H1 [H2 [H3 H4]]]. split; [exact H1|]. split; [|split; [exact H3|]].
  - simpl. rewrite map_app. apply Forall_app. split; [exact H2|]. simpl. auto.
  - apply Uniq_insert; assumption.
Qed.

Lemma WF_status_store req o s : WF s -> WF (status_store req o s).
Proof.
  unfold status_store. destruct (status_change req); [destruct (truthy_str _)|];
    auto using WF_write_order.
Qed.

Lemma WF_add_dishes o ids s :
  (order_id o < next_order_id s)%nat -> WF s -> WF (snd (add_dishes o ids s)).
Proof.
  intros Ho Hw.
  assert (Hst : stable (fun s' => WF s' /\ (order_id o < next_order_id s')%nat) (add_dishes o ids)).
  { apply stable_add_dishes.
    - intros l s' [H1 H2]. split; [apply WF_write_line; exact H1|exact H2].
    - intros s' d Hnil [H1 H2]. split; [apply WF_insert_line; assumption|exact H2]. }
  apply (Hst s). auto.
Qed.

Lemma WF_order_update_post pk req s : WF s -> WF (snd (order_update_post pk req s)).
Proof.
  intros Hw. rewrite order_update_post_eq.
  destruct (find_order s pk) as [o|] eqn:Ef; [|exact Hw].
  destruct (find_order_some _ _ _ Ef) as [Hid Hin].
  assert (Hlt : (order_id (applied_status req o) < next_order_id (status_store req o s))%nat).
  { rewrite applied_status_id.
    replace (next_order_id (status_store req o s)) with (next_order_id s)
      by (unfold status_store; destruct (status_change req); [destruct (truthy_str _)|]; reflexivity).
    destruct Hw as [H1 _]. rewrite Forall_forall in H1. apply H1. apply in_map. exact Hin. }
  assert (Hw2 := WF_add_dishes _ (ur_dishes req) _ Hlt (WF_status_store req o s Hw)).
  cbv zeta.
  destruct (add_dishes (applied_status req o) (ur_dishes req) (status_store req o s))
    as [[e|u] s2]; simpl in *; [exact Hw2|apply WF_write_order; exact Hw2].
Qed.

Lemma create_lines_eq o ds s :
  create_lines o ds s =
  (inr tt, mkStore (dishes s) (orders s)
             (orderdishes s ++ map (fun d => mkOrderDish (order_id o) (dish_id d) 1) ds)
             (next_order_id s)).
Proof.
  revert s. induction ds as [|d ds IH]; intros s; simpl.
  - rewrite app_nil_r. destruct s; reflexivity.
  - unfold bind, create_line, modify. rewrite IH. simpl. rewrite <- app_assoc. reflexivity.
Qed.

Lemma WF_insert_order t st tot s : WF s -> WF (snd (insert_order t st tot s)).
Proof.
  intros [H1 [H2 [H3 H4]]]. unfold insert_order, WF, Uniq; simpl.
  split; [|split; [|split; assumption]].
  - rewrite map_app. apply Forall_app. split; [|simpl; auto].
    eapply Forall_impl; [|exact H1]. simpl. intros; lia.
  - eapply Forall_impl; [|exact H2]. simpl. intros; lia.
Qed.

Lemma WF_order_create_post f s : WF s -> WF (snd (order_create_post f s)).
Proof.
  intros Hw. unfold order_create_post. destruct (create_form_valid s f); [|exact Hw].
  unfold bind, save_new_order.
  destruct (insert_order _ _ _ s) as [o s1] eqn:Ei.
  assert (Hw1 : WF s1) by (replace s1 with (snd (insert_order
     (match cf_table f with Some t => t | None => 0 end) (cf_status f) 0 s))
       by (rewrite Ei; reflexivity); apply WF_insert_order; exact Hw).
  unfold insert_order in Ei. inversion Ei; subst o s1. clear Ei.
  rewrite create_lines_eq. simpl.
  destruct Hw as [H1 [H2 [H3 H4]]]. destruct Hw1 as [G1 [G2 [G3 G4]]]. simpl in *.
  split; [exact G1|]. split; [|split; [exact H3|]].
  - simpl. rewrite map_app. apply Forall_app. split; [exact G2|].
    rewrite map_map. apply Forall_map. apply Forall_forall. intros d _. simpl. lia.
  - unfold Uniq; simpl. rewrite map_app, map_map. unfold key at 2. simpl.
    apply NoDup_app; [exact H4| |].
    + replace (map (fun x => (next_order_id s, dish_id x)) (cleaned_items s f))
        with (map (fun i => (next_order_id s, i)) (map dish_id (cleaned_items s f)))
        by (rewrite map_map; reflexivity).
      apply NoDup_map_pair. apply NoDup_map_filter. exact H3.
    + intros k Hk Hk'. apply in_map_iff in Hk' as [d [Hd _]]. subst k.
      rewrite Forall_forall in H2. specialize (H2 _ Hk). simpl in H2. lia.
Qed.

Lemma WF_api_create v s : WF s -> WF (snd (api_create v s)).
Proof.
  intros Hw. unfold api_create.
  destruct (api_create_valid v); [|exact Hw].
  unfold bind at 1, save_new_order.
  assert (Hw1 := WF_insert_order (match ac_table v with Some t => t | None => 0 end)
                   (match ac_status v with Some st => st | None => "pending" end)
                   (match ac_total v with Some t => t | None => 0 end) s Hw).
  destruct (insert_order _ _ _ s) as [o s1]. simpl in Hw1.
  destruct (match ac_items v with Some l => l | None => [] end) as [|q rest]; exact Hw1.
Qed.

Lemma add_dishes_one o did dish s :
  find_dish s did = Some dish ->
  add_dishes o [did] s =
  match lines_for s (order_id o) did with
  | [] => (inr tt, insert_line (mkOrderDish (order_id o) did 1) s)
  | [l] => (inr tt, write_line (set_quantity l (S (quantity l))) s)
  | _ => (inl MultipleObjectsReturned, s)
  end.
Proof.
  intros H. destruct (find_dish_some _ _ _ H) as [Hid _].
  simpl. unfold bind, get_dish_or_404. rewrite H. unfold get_or_create. rewrite Hid.
  destruct (lines_for s (order_id o) did) as [|l [|l' rest]]; reflexivity.
Qed.

Lemma lines_for_insert l s o d :
  lines_for (insert_line l s) o d = (lines_for s o d ++ (if line_is o d l then [l] else []))%list.
Proof. unfold lines_for, insert_line; simpl. rewrite filter_app. reflexivity. Qed.

Lemma lines_for_write_line l s :
  lines_for (write_line l s) (od_order l) (od_dish l) =
  map (fun _ => l) (lines_for s (od_order l) (od_dish l)).
Proof.
  unfold lines_for, write_line; simpl. induction (orderdishes s) as [|x ls IH]; simpl; auto.
  destruct (line_is (od_order l) (od_dish l) x) eqn:E.
  - assert (El : line_is (od_order l) (od_dish l) l = true)
      by (unfold line_is; rewrite !Nat.eqb_refl; reflexivity).
    rewrite El. simpl. rewrite IH. reflexivity.
  - rewrite E. exact IH.
Qed.

(** The update view without a status change and with one dish id, run on
    an order found in the store. *)
Lemma order_update_post_one_dish pk did s o dish :
  find_order s pk = Some o -> find_dish s did = Some dish ->
  order_update_post pk (mkUpdateRequest false None [did]) s =
  let sa := match lines_for s pk did with
            | [] => insert_line (mkOrderDish pk did 1) s
            | [l] => write_line (set_quantity l (S (quantity l))) s
            | _ => s
            end in
  match lines_for s pk did with
  | [] | [_] => (inr tt, write_order (set_total o (line_sum sa pk)) sa)
  | _ => (inl MultipleObjectsReturned, s)
  end.
Proof.
  intros Hf Hd. destruct (find_order_some _ _ _ Hf) as [Hid _].
  rewrite order_update_post_eq, Hf. cbv zeta. cbn [applied_status status_store status_change ur_dishes].
  rewrite (add_dishes_one o did dish s Hd), Hid.
  destruct (lines_for s pk did) as [|l [|l' rest]]; reflexivity.
Qed.

(** *** C2 *)

(** C2: the operations that add dishes to orders ([OrderUpdateView.post],
    [OrderCreateView.post] and the API create) keep the database
    well-formed, in particular with at most one order line per (order,
    dish) pair; and two update requests each adding dish [did] to an order
    without a line for it leave exactly one line for [did], of
    quantity 2. *)
Theorem C2_unique_lines :
  (forall s, WF s ->
     (forall pk req, WF (snd (order_update_post pk req s))) /\
     (forall f, WF (snd (order_create_post f s))) /\
     (forall v, WF (snd (api_create v s)))) /\
  (forall s pk o did dish,
     find_order s pk = Some o -> find_dish s did = Some dish -> lines_for s pk did = [] ->
     let s1 := snd (order_update_post pk (mkUpdateRequest false None [did]) s) in
     let s2 := snd (order_update_post pk (mkUpdateRequest false None [did]) s1) in
     lines_for s2 pk did = [mkOrderDish pk did 2]).
Proof.
  split.
  - intros s Hw. split; [|split]; intros.
    + apply WF_order_update_post; exact Hw.
    + apply WF_order_create_post; exact Hw.
    + apply WF_api_create; exact Hw.
  - intros s pk o did dish Hf Hd Hnil. cbv zeta.
    destruct (find_order_some _ _ _ Hf) as [Hid Hin].
    rewrite (order_update_post_one_dish pk did s o dish Hf Hd), Hnil. cbv zeta. simpl snd.
    set (sa := insert_line (mkOrderDish pk did 1) s).
    set (s1 := write_order (set_total o (line_sum sa pk)) sa).
    assert (Hf1 : find_order s1 pk = Some (set_total o (line_sum sa pk))).
    { apply find_order_write_pk; [exact Hid|]. exists o. auto. }
    assert (Hd1 : find_dish s1 did = Some dish) by exact Hd.
    assert (Hl1 : lines_for s1 pk did = [mkOrderDish pk did 1]).
    { change (lines_for sa pk did = [mkOrderDish pk did 1]).
      unfold sa. rewrite lines_for_insert, Hnil.
      unfold line_is; simpl. rewrite !Nat.eqb_refl. reflexivity. }
    rewrite (order_update_post_one_dish pk did s1 _ dish Hf1 Hd1), Hl1. cbv zeta. simpl snd.
    change (lines_for (write_line (mkOrderDish pk did 2) s1) pk did = [mkOrderDish pk did 2]).
    change pk with (od_order (mkOrderDish pk did 2)) at 2.
    change did with (od_dish (mkOrderDish pk did 2)) at 2.
    rewrite lines_for_write_line. simpl. rewrite Hl1. reflexivity.
Qed.

Lemma C2_unique_lines_witness :
  WF catalog /\ WF (snd (order_create_post create_form_3 catalog)) /\
  find_order api_order_store 1 = Some (mkOrder 1 5 "pending" 0) /\
  find_dish api_order_store 1 = Some pizza /\
  lines_for api_order_store 1 1 = [] /\
  lines_for (snd (order_update_post 1 (mkUpdateRequest false None [1%nat])
                    (snd (order_update_post 1 (mkUpdateRequest false None [1%nat])
                            api_order_store)))) 1 1 = [mkOrderDish 1 1 2].
Proof.
  assert (Hw : WF catalog).
  { unfold WF, Uniq; simpl. repeat constructor; simpl; intuition lia. }
  split; [exact Hw|]. split.
  { exact (proj1 (proj2 (proj1 C2_unique_lines catalog Hw)) create_form_3). }
  split; [vm_compute; reflexivity|]. split; [vm_compute; reflexivity|].
  split; [vm_compute; reflexivity|].
  exact (proj2 C2_unique_lines api_order_store 1%nat (mkOrder 1 5 "pending" 0) 1%nat pizza
           (eq_refl _) (eq_refl _) (eq_refl _)).
Defined.

(** ** Removing one unit of a dish *)

Lemma lines_for_remove l s :
  lines_for (remove_line l s) (od_order l) (od_dish l) = [].
Proof.
  unfold lines_for, remove_line; cbn [orderdishes].
  induction (orderdishes s) as [|x ls IH]; [reflexivity|]. cbn [filter].
  destruct (line_is (od_order l) (od_dish l) x) eqn:E; cbn [negb filter];
    [exact IH|rewrite E; exact IH].
Qed.

Lemma lines_for_key s o d l : In l (lines_for s o d) -> od_order l = o /\ od_dish l = d.
Proof.
  unfold lines_for. intros H. apply filter_In in H as [_ H].
  apply line_is_key in H. unfold key in H. inversion H. auto.
Qed.

(** *** C3 *)

(** C3: for an order, a dish and the single order line joining them,
    [OrderRemoveDishView.post] succeeds; the line's quantity drops by one
    when it was above 1, and the line is deleted otherwise (in particular
    when it was 1); the order's stored total is then the sum over its
    remaining lines. *)
Theorem C3_remove_one_unit s oid did o dish l :
  find_order s oid = Some o -> find_dish s did = Some dish -> lines_for s oid did = [l] ->
  exists s', order_remove_dish_post oid (Some did) s = (inr tt, s') /\
    lines_for s' oid did =
      (if Nat.ltb 1 (quantity l)
       then [mkOrderDish oid did (quantity l - 1)] else []) /\
    find_order s' oid = Some (set_total o (line_sum s' oid)).
Proof.
  intros Hf Hd Hl.
  destruct (find_order_some _ _ _ Hf) as [Hid _].
  destruct (find_dish_some _ _ _ Hd) as [Hdid _].
  destruct (lines_for_key s oid did l) as [Hlo Hld]; [rewrite Hl; left; reflexivity|].
  assert (Hrun := order_remove_dish_post_eq oid did s).
  rewrite Hf, Hd, Hid, Hdid, Hl in Hrun. cbv zeta in Hrun.
  eexists. split; [exact Hrun|]. split.
  - destruct (Nat.ltb 1 (quantity l)).
    + change (lines_for (write_line (set_quantity l (Nat.pred (quantity l))) s) oid did =
              [mkOrderDish oid did (quantity l - 1)]).
      rewrite <- Hlo, <- Hld at 1.
      change (od_order l) with (od_order (set_quantity l (Nat.pred (quantity l)))) at 1.
      change (od_dish l) with (od_dish (set_quantity l (Nat.pred (quantity l)))) at 1.
      rewrite lines_for_write_line. simpl. rewrite Hlo, Hld, Hl. simpl.
      unfold set_quantity. rewrite Hlo, Hld, Nat.sub_1_r. reflexivity.
    + change (lines_for (remove_line l s) oid did = []).
      rewrite <- Hlo, <- Hld. apply lines_for_remove.
  - destruct (order_remove_dish_post_total _ _ _ _ Hrun) as [o' [Hf' Hs']].
    rewrite Hf in Hf'. inversion Hf'; subst o'. exact Hs'.
Qed.

(** *** C4 *)

(** C4: when the order has no line for the dish, [OrderRemoveDishView.post]
    raises [Http404] and leaves the whole database as it was. *)
Theorem C4_remove_absent_dish s oid did :
  lines_for s oid did = [] ->
  order_remove_dish_post oid (Some did) s = (inl Http404, s).
Proof.
  intros Hnil. rewrite order_remove_dish_post_eq.
  destruct (find_order s oid) as [o|] eqn:Ef; [|reflexivity].
  destruct (find_order_some _ _ _ Ef) as [Hid _].
  destruct (find_dish s did) as [d|] eqn:Ed; [|reflexivity].
  destruct (find_dish_some _ _ _ Ed) as [Hdid _].
  rewrite Hid, Hdid, Hnil. reflexivity.
Qed.

Lemma C4_remove_absent_dish_witness :
  lines_for api_order_store 1 1 = [] /\
  order_remove_dish_post 1 (Some 1%nat) api_order_store = (inl Http404, api_order_store).
Proof.
  split; [vm_compute; reflexivity|].
  apply C4_remove_absent_dish. vm_compute. reflexivity.
Defined.

Lemma C3_remove_one_unit_witness :
  (exists s', order_remove_dish_post 1 (Some 1%nat) after_second_pizza = (inr tt, s') /\
     lines_for s' 1 1 = (if Nat.ltb 1 2 then [mkOrderDish 1 1 (2 - 1)] else []) /\
     find_order s' 1 = Some (set_total (mkOrder 1 3 "pending" 2500) (line_sum s' 1))) /\
  (exists s', order_remove_dish_post 1 (Some 1%nat) after_sync = (inr tt, s') /\
     lines_for s' 1 1 = (if Nat.ltb 1 1 then [mkOrderDish 1 1 (1 - 1)] else []) /\
     find_order s' 1 = Some (set_total (mkOrder 1 3 "pending" 1500) (line_sum s' 1))).
Proof.
  split.
  - exact (C3_remove_one_unit after_second_pizza 1%nat 1%nat (mkOrder 1 3 "pending" 2500)
             pizza (mkOrderDish 1 1 2) (eq_refl _) (eq_refl _) (eq_refl _)).
  - exact (C3_remove_one_unit after_sync 1%nat 1%nat (mkOrder 1 3 "pending" 1500)
             pizza (mkOrderDish 1 1 1) (eq_refl _) (eq_refl _) (eq_refl _)).
Defined.

(** ** Changing the status *)

(** *** C5 *)

(** C5 (code defect): [OrderUpdateView.post] stores whatever non-empty
    status text it is sent, although the model declares the choices
    pending, ready and paid: an update request with status "cancelled"
    succeeds and stores "cancelled". An empty status is ignored without
    an error. *)
Theorem C5_status_not_validated :
  is_status_choice "cancelled" = false /\
  fst (order_update_post 1 (mkUpdateRequest true (Some "cancelled") []) after_sync) = inr tt /\
  option_map status
    (find_order (snd (order_update_post 1 (mkUpdateRequest true (Some "cancelled") []) after_sync)) 1)
    = Some "cancelled" /\
  order_update_post 1 (mkUpdateRequest true (Some "") []) after_sync = (inr tt, after_sync).
Proof. vm_compute. repeat split; reflexivity. Qed.

(** ** Creating an order *)

Lemma filter_old_lines n ls :
  Forall (fun k => (fst k < n)%nat) (map key ls) ->
  filter (fun l => Nat.eqb (od_order l) n) ls = [].
Proof.
  induction ls as [|x ls IH]; simpl; intros H; [reflexivity|].
  inversion H as [|? ? Hx Hls]; subst. unfold key in Hx; simpl in Hx.
  destruct (Nat.eqb (od_order x) n) eqn:E; [apply Nat.eqb_eq in E; lia|auto].
Qed.

Lemma filter_new_lines n ds :
  filter (fun l => Nat.eqb (od_order l) n) (map (fun d => mkOrderDish n (dish_id d) 1) ds) =
  map (fun d => mkOrderDish n (dish_id d) 1) ds.
Proof.
  induction ds as [|d ds IH]; simpl; [reflexivity|]. rewrite Nat.eqb_refl, IH. reflexivity.
Qed.

Lemma find_appended os o n :
  Forall (fun i => (i < n)%nat) (map order_id os) -> order_id o = n ->
  find (fun x => Nat.eqb (order_id x) n) (os ++ [o]) = Some o.
Proof.
  intros H Ho. induction os as [|x os IH]; simpl.
  - rewrite Ho, Nat.eqb_refl. reflexivity.
  - inversion H as [|? ? Hx Hos]; subst.
    destruct (Nat.eqb (order_id x) (order_id o)) eqn:E; [apply Nat.eqb_eq in E; lia|auto].
Qed.

(** *** C6 *)

(** C6 (the code's defect): the create view does not make the order's
    status pending by itself, it stores the submitted status; and the
    order it creates for table 3 with the pizza (10.00) and the salad
    (5.00) has the stored total 0, not 15.00, although its lines sum to
    15.00. *)
Lemma C6_created_order_counterexample :
  option_map total_price (find_order after_create 1) = Some 0 /\
  line_sum after_create 1 = 1500 /\
  option_map status
    (find_order (snd (order_create_post (mkCreateForm (Some 3) "paid" [1%nat; 2%nat]) catalog)) 1)
    = Some "paid".
Proof. vm_compute. repeat split; reflexivity. Qed.

(** C6, the lines: on a valid form, [OrderCreateView.post] creates an
    order with the next primary key, the submitted table number and the
    submitted status, and exactly one order line of quantity 1 for each
    selected dish, each dish once. *)
Theorem C6_create_order_lines s f :
  WF s -> create_form_valid s f = true ->
  fst (order_create_post f s) = inr tt /\
  exists o, find_order (snd (order_create_post f s)) (next_order_id s) = Some o /\
    Some (table_number o) = cf_table f /\ status o = cf_status f /\
    lines_of (snd (order_create_post f s)) (next_order_id s) =
      map (fun d => mkOrderDish (next_order_id s) (dish_id d) 1) (cleaned_items s f).
Proof.
  intros [H1 [H2 _]] Hv. unfold order_create_post. rewrite Hv.
  unfold bind, save_new_order, insert_order. cbv zeta.
  rewrite create_lines_eq. simpl. split; [reflexivity|].
  eexists. split; [|split; [|split]].
  - unfold find_order; simpl. apply find_appended; [exact H1|reflexivity].
  - simpl. unfold create_form_valid in Hv.
    destruct (cf_table f); [reflexivity|discriminate].
  - reflexivity.
  - unfold lines_of; simpl. rewrite filter_app, filter_old_lines, filter_new_lines; auto.
Qed.

Lemma C6_create_order_lines_witness :
  WF catalog /\ create_form_valid catalog create_form_3 = true /\
  cleaned_items catalog create_form_3 = [pizza; salad] /\
  fst (order_create_post create_form_3 catalog) = inr tt /\
  exists o, find_order (snd (order_create_post create_form_3 catalog)) 1 = Some o /\
    Some (table_number o) = Some 3 /\ status o = "pending" /\
    lines_of (snd (order_create_post create_form_3 catalog)) 1 =
      [mkOrderDish 1 1 1; mkOrderDish 1 2 1].
Proof.
  assert (Hw : WF catalog).
  { unfold WF, Uniq; simpl. repeat constructor; simpl; intuition lia. }
  split; [exact Hw|]. split; [vm_compute; reflexivity|]. split; [vm_compute; reflexivity|].
  exact (C6_create_order_lines catalog create_form_3 Hw (eq_refl _)).
Defined.

(** ** Revenue *)

(** *** C7 *)

(** C7: [revenue_calculation] is the sum of the stored [total_price] of
    the orders whose status is paid, and 0 when there is none. *)
Theorem C7_revenue_sum_of_paid s :
  revenue_calculation s = fold_left Z.add (map total_price (paid_orders s)) 0 /\
  (paid_orders s = [] -> revenue_calculation s = 0).
Proof.
  assert (Hsum : revenue_calculation s = fold_left Z.add (map total_price (paid_orders s)) 0).
  { unfold revenue_calculation.
    destruct (map total_price (paid_orders s)) as [|x rest]; simpl; [reflexivity|].
    destruct (Z.eqb (fold_left Z.add rest x) 0) eqn:E; [|reflexivity].
    apply Z.eqb_eq in E. rewrite E. reflexivity. }
  split; [exact Hsum|]. intros H. rewrite Hsum, H. reflexivity.
Qed.

Lemma C7_revenue_sum_of_paid_witness :
  paid_orders catalog = [] /\ revenue_calculation catalog = 0 /\
  revenue_calculation revenue_store = fold_left Z.add (map total_price (paid_orders revenue_store)) 0 /\
  revenue_calculation revenue_store = 3750.
Proof.
  split; [reflexivity|]. split; [apply (proj2 (C7_revenue_sum_of_paid catalog)); reflexivity|].
  split; [apply (proj1 (C7_revenue_sum_of_paid revenue_store))|vm_compute; reflexivity].
Defined.

(** ** Search *)

(** *** C8 *)

(** C8 (code defect): [order_search] tests [if table_number:], which is
    false for the table number 0: a search for table 0 returns every
    order, also the order of table 5. *)
Theorem C8_search_table_zero :
  filter (fun o => Z.eqb (table_number o) 0) (orders search_store) = [mkOrder 1 0 "pending" 0] /\
  order_search (mkSearchQuery (Some (TInt 0)) None) search_store =
    [mkOrder 1 0 "pending" 0; mkOrder 2 5 "paid" 1500].
Proof. split; reflexivity. Qed.

(** ** Failing requests *)

Lemma add_dishes_cons o did rest s :
  add_dishes o (did :: rest) s =
  match find_dish s did with
  | None => (inl Http404, s)
  | Some d =>
      match lines_for s (order_id o) (dish_id d) with
      | [] => add_dishes o rest (insert_line (mkOrderDish (order_id o) (dish_id d) 1) s)
      | [l] => add_dishes o rest (write_line (set_quantity l (S (quantity l))) s)
      | _ => (inl MultipleObjectsReturned, s)
      end
  end.
Proof.
  simpl. unfold bind at 1, get_dish_or_404. destruct (find_dish s did) as [d|]; [|reflexivity].
  unfold bind, get_or_create. destruct (lines_for s (order_id o) (dish_id d)) as [|l [|l' r]];
    reflexivity.
Qed.

(** A failing dish loop stops at one dish id; the writes for the ids
    before it stay. *)
Lemma add_dishes_fail o ids s e s' :
  add_dishes o ids s = (inl e, s') ->
  exists pre x post, ids = (pre ++ x :: post)%list /\
    add_dishes o pre s = (inr tt, s') /\
    (find_dish s' x = None \/
     exists d l1 l2 rest, find_dish s' x = Some d /\
       lines_for s' (order_id o) (dish_id d) = l1 :: l2 :: rest).
Proof.
  revert s. induction ids as [|did ids IH]; intros s H; [discriminate|].
  rewrite add_dishes_cons in H.
  destruct (find_dish s did) as [d|] eqn:Ed.
  - destruct (lines_for s (order_id o) (dish_id d)) as [|l [|l2 r]] eqn:El.
    + destruct (IH _ H) as [pre [x [post [Hids [Hpre Hx]]]]].
      exists (did :: pre), x, post. split; [rewrite Hids; reflexivity|]. split; [|exact Hx].
      rewrite add_dishes_cons, Ed, El. exact Hpre.
    + destruct (IH _ H) as [pre [x [post [Hids [Hpre Hx]]]]].
      exists (did :: pre), x, post. split; [rewrite Hids; reflexivity|]. split; [|exact Hx].
      rewrite add_dishes_cons, Ed, El. exact Hpre.
    + inversion H; subst s'. exists [], did, ids. split; [reflexivity|]. split; [reflexivity|].
      right. exists d, l, l2, r. auto.
  - inversion H; subst s'. exists [], did, ids. split; [reflexivity|]. split; [reflexivity|].
    left. exact Ed.
Qed.

Lemma find_order_status_store req o s pk :
  find_order s pk = Some o -> find_order (status_store req o s) pk = Some (applied_status req o).
Proof.
  intros Hf. destruct (find_order_some _ _ _ Hf) as [Hid Hin].
  unfold status_store, applied_status.
  destruct (status_change req); [destruct (truthy_str (ur_status req)) as [st|]|]; auto.
  apply find_order_write_pk; [exact Hid|]. exists o; auto.
Qed.

Lemma applied_status_total req o : total_price (applied_status req o) = total_price o.
Proof.
  unfold applied_status. destruct (status_change req); [destruct (truthy_str _)|]; reflexivity.
Qed.

(** A failing update request on an existing order stops at one dish id:
    the run over the ids before it is stored, and the order keeps the
    status step's result with its old total. *)
Lemma order_update_post_fails pk req s o e s' :
  find_order s pk = Some o -> order_update_post pk req s = (inl e, s') ->
  exists pre x post,
    ur_dishes req = (pre ++ x :: post)%list /\
    add_dishes (applied_status req o) pre (status_store req o s) = (inr tt, s') /\
    (find_dish s' x = None \/
     exists d l1 l2 rest, find_dish s' x = Some d /\
       lines_for s' pk (dish_id d) = l1 :: l2 :: rest) /\
    find_order s' pk = Some (applied_status req o) /\
    total_price (applied_status req o) = total_price o.
Proof.
  intros Ef H. rewrite order_update_post_eq, Ef in H.
  destruct (find_order_some _ _ _ Ef) as [Hid _].
  cbv zeta in H.
  assert (Hfr := add_dishes_frame (applied_status req o) (ur_dishes req) (status_store req o s)).
  destruct (add_dishes (applied_status req o) (ur_dishes req) (status_store req o s))
    as [[e'|u] s2] eqn:Ea; [|discriminate].
  inversion H; subst e' s2. clear H. simpl in Hfr. destruct Hfr as [Hos _].
  destruct (add_dishes_fail _ _ _ _ _ Ea) as [pre [x [post [Hids [Hpre Hx]]]]].
  exists pre, x, post. split; [exact Hids|].
  split; [exact Hpre|]. split; [|split; [|apply applied_status_total]].
  - rewrite applied_status_id, Hid in Hx. exact Hx.
  - unfold find_order. rewrite Hos. apply find_order_status_store. exact Ef.
Qed.

(** *** C9 *)

(** C9: a failing mutation is not undone. An update
    request that sets the status ready and adds the pizza and then the
    unknown dish 99 raises [Http404], yet the new status and the second
    pizza are stored and the stored total (15.00) no longer matches the
    lines (25.00). *)
Lemma C9_update_not_atomic :
  let r := order_update_post 1 (mkUpdateRequest true (Some "ready") [1%nat; 99%nat]) after_sync in
  fst r = inl Http404 /\
  orderdishes (snd r) <> orderdishes after_sync /\
  find_order (snd r) 1 = Some (mkOrder 1 3 "ready" 1500) /\
  line_sum (snd r) 1 = 2500.
Proof. vm_compute. split; [reflexivity|]. split; [discriminate|]. split; reflexivity. Qed.

(** C9: the views run without a transaction. A failing
    [OrderRemoveDishView.post] has made all its checks before its first
    write and leaves the database unchanged. A failing
    [OrderUpdateView.post] on an existing order stops at one dish id
    (unknown, or with duplicated lines): the status change and the line
    changes for the dish ids before it stay stored, and the order keeps
    its previous [total_price]. *)
Theorem C9_failure_effects :
  (forall oid did s e s',
     order_remove_dish_post oid did s = (inl e, s') -> s' = s) /\
  (forall pk req s e s',
     order_update_post pk req s = (inl e, s') ->
     (find_order s pk = None /\ s' = s) \/
     exists o pre x post,
       find_order s pk = Some o /\ ur_dishes req = (pre ++ x :: post)%list /\
       add_dishes (applied_status req o) pre (status_store req o s) = (inr tt, s') /\
       (find_dish s' x = None \/
        exists d l1 l2 rest, find_dish s' x = Some d /\
          lines_for s' pk (dish_id d) = l1 :: l2 :: rest) /\
       find_order s' pk = Some (applied_status req o) /\
       total_price (applied_status req o) = total_price o).
Proof.
  split.
  - intros oid [did|] s e s' H.
    + rewrite order_remove_dish_post_eq in H.
      destruct (find_order s oid) as [o|]; [|inversion H; reflexivity].
      destruct (find_dish s did) as [d|]; [|inversion H; reflexivity].
      destruct (lines_for s (order_id o) (dish_id d)) as [|l [|l2 r]];
        inversion H; reflexivity.
    + unfold order_remove_dish_post, bind, get_order_or_404 in H.
      destruct (find_order s oid); simpl in H; [discriminate|inversion H; reflexivity].
  - intros pk req s e s' H.
    destruct (find_order s pk) as [o|] eqn:Ef.
    + right. destruct (order_update_post_fails _ _ _ _ _ _ Ef H)
        as [pre [x [post [Hids [Hpre [Hx [Hf' Ht]]]]]]].
      exists o, pre, x, post. auto 6.
    + left. rewrite order_update_post_eq, Ef in H. inversion H; auto.
Qed.

Lemma C9_failure_effects_witness :
  order_remove_dish_post 1 (Some 1%nat) api_order_store = (inl Http404, api_order_store) /\
  order_update_post 1 (mkUpdateRequest true (Some "ready") [1%nat; 99%nat]) after_sync =
    (inl Http404,
     snd (order_update_post 1 (mkUpdateRequest true (Some "ready") [1%nat; 99%nat]) after_sync)) /\
  snd (order_remove_dish_post 1 (Some 1%nat) api_order_store) = api_order_store /\
  ((find_order after_sync 1 = None /\
    snd (order_update_post 1 (mkUpdateRequest true (Some "ready") [1%nat; 99%nat]) after_sync)
      = after_sync) \/
   exists o pre x post,
     find_order after_sync 1 = Some o /\
     ur_dishes (mkUpdateRequest true (Some "ready") [1%nat; 99%nat]) = (pre ++ x :: post)%list /\
     add_dishes (applied_status (mkUpdateRequest true (Some "ready") [1%nat; 99%nat]) o) pre
       (status_store (mkUpdateRequest true (Some "ready") [1%nat; 99%nat]) o after_sync) =
       (inr tt, snd (order_update_post 1 (mkUpdateRequest true (Some "ready") [1%nat; 99%nat])
                       after_sync)) /\
     (find_dish (snd (order_update_post 1 (mkUpdateRequest true (Some "ready") [1%nat; 99%nat])
                        after_sync)) x = None \/
      exists d l1 l2 rest,
        find_dish (snd (order_update_post 1 (mkUpdateRequest true (Some "ready") [1%nat; 99%nat])
                          after_sync)) x = Some d /\
        lines_for (snd (order_update_post 1 (mkUpdateRequest true (Some "ready") [1%nat; 99%nat])
                          after_sync)) 1 (dish_id d) = l1 :: l2 :: rest) /\
     find_order (snd (order_update_post 1 (mkUpdateRequest true (Some "ready") [1%nat; 99%nat])
                        after_sync)) 1
       = Some (applied_status (mkUpdateRequest true (Some "ready") [1%nat; 99%nat]) o) /\
     total_price (applied_status (mkUpdateRequest true (Some "ready") [1%nat; 99%nat]) o)
       = total_price o).
Proof.
  split; [vm_compute; reflexivity|]. split; [vm_compute; reflexivity|].
  split.
  - apply (proj1 C9_failure_effects 1%nat (Some 1%nat) api_order_store Http404).
    vm_compute. reflexivity.
  - apply (proj2 C9_failure_effects 1%nat _ after_sync Http404). vm_compute. reflexivity.
Defined.

(** *** C1, as amended *)

(** C1 (as amended): when [OrderUpdateView.post] returns its redirect, and
    when [OrderRemoveDishView.post] given a dish id returns its redirect,
    the order's stored [total_price] equals the sum over its current
    order lines of dish price times quantity. No transaction wraps the
    update view: a request on an existing order that fails on one of its
    dish ids (unknown, or with duplicated lines) leaves stored the line
    changes made for the ids before it, and the order's [total_price] is
    not recomputed. *)
Theorem C1_views_recompute_total :
  (forall pk req s s', order_update_post pk req s = (inr tt, s') ->
     exists o, find_order s' pk = Some o /\ total_price o = line_sum s' pk) /\
  (forall oid did s s', order_remove_dish_post oid (Some did) s = (inr tt, s') ->
     exists o, find_order s' oid = Some o /\ total_price o = line_sum s' oid) /\
  (forall pk req s o e s', find_order s pk = Some o ->
     order_update_post pk req s = (inl e, s') ->
     exists pre x post,
       ur_dishes req = (pre ++ x :: post)%list /\
       add_dishes (applied_status req o) pre (status_store req o s) = (inr tt, s') /\
       (find_dish s' x = None \/
        exists d l1 l2 rest, find_dish s' x = Some d /\
          lines_for s' pk (dish_id d) = l1 :: l2 :: rest) /\
       exists o', find_order s' pk = Some o' /\ total_price o' = total_price o).
Proof.
  split; [|split].
  - intros pk req s s' H. destruct (order_update_post_total _ _ _ _ H) as [o [_ [Hf _]]].
    eexists; split; [exact Hf|reflexivity].
  - intros oid did s s' H. destruct (order_remove_dish_post_total _ _ _ _ H) as [o [_ Hf]].
    eexists; split; [exact Hf|reflexivity].
  - intros pk req s o e s' Ef H.
    destruct (order_update_post_fails _ _ _ _ _ _ Ef H)
      as [pre [x [post [Hids [Hpre [Hx [Hf' Ht]]]]]]].
    exists pre, x, post. split; [exact Hids|]. split; [exact Hpre|]. split; [exact Hx|].
    exists (applied_status req o). split; assumption.
Qed.

Lemma C1_views_recompute_total_witness :
  order_update_post 1 (mkUpdateRequest false None [1%nat])  after_sync =
    (inr tt, snd (order_update_post 1 (mkUpdateRequest false None [1%nat]) after_sync)) /\
  order_remove_dish_post 1 (Some 2%nat) after_sync =
    (inr tt, snd (order_remove_dish_post 1 (Some 2%nat) after_sync)) /\
  find_order after_sync 1 = Some (mkOrder 1 3 "pending" 1500) /\
  order_update_post 1 (mkUpdateRequest false None [1%nat; 99%nat]) after_sync =
    (inl Http404, snd (order_update_post 1 (mkUpdateRequest false None [1%nat; 99%nat]) after_sync)) /\
  (exists o, find_order (snd (order_update_post 1 (mkUpdateRequest false None [1%nat]) after_sync)) 1
               = Some o /\
             total_price o = line_sum (snd (order_update_post 1 (mkUpdateRequest false None [1%nat]) after_sync)) 1) /\
  (exists o, find_order (snd (order_remove_dish_post 1 (Some 2%nat) after_sync)) 1 = Some o /\
             total_price o = line_sum (snd (order_remove_dish_post 1 (Some 2%nat) after_sync)) 1) /\
  (exists pre x post,
     ur_dishes (mkUpdateRequest false None [1%nat; 99%nat]) = (pre ++ x :: post)%list /\
     add_dishes (applied_status (mkUpdateRequest false None [1%nat; 99%nat]) (mkOrder 1 3 "pending" 1500))
       pre (status_store (mkUpdateRequest false None [1%nat; 99%nat]) (mkOrder 1 3 "pending" 1500) after_sync)
       = (inr tt, snd (order_update_post 1 (mkUpdateRequest false None [1%nat; 99%nat]) after_sync)) /\
     (find_dish (snd (order_update_post 1 (mkUpdateRequest false None [1%nat; 99%nat]) after_sync)) x = None \/
      exists d l1 l2 rest,
        find_dish (snd (order_update_post 1 (mkUpdateRequest false None [1%nat; 99%nat]) after_sync)) x = Some d /\
        lines_for (snd (order_update_post 1 (mkUpdateRequest false None [1%nat; 99%nat]) after_sync)) 1
          (dish_id d) = l1 :: l2 :: rest) /\
     exists o', find_order (snd (order_update_post 1 (mkUpdateRequest false None [1%nat; 99%nat]) after_sync)) 1
                  = Some o' /\ total_price o' = total_price (mkOrder 1 3 "pending" 1500)).
Proof.
  split; [vm_compute; reflexivity|]. split; [vm_compute; reflexivity|].
  split; [vm_compute; reflexivity|]. split; [vm_compute; reflexivity|]. split; [|split].
  - apply (proj1 C1_views_recompute_total 1%nat (mkUpdateRequest false None [1%nat]) after_sync). vm_compute. reflexivity.
  - apply (proj1 (proj2 C1_views_recompute_total) 1%nat 2%nat after_sync). vm_compute. reflexivity.
  - apply (proj2 (proj2 C1_views_recompute_total) 1%nat (mkUpdateRequest false None [1%nat; 99%nat])
             after_sync (mkOrder 1 3 "pending" 1500) Http404); vm_compute; reflexivity.
Defined.

(** * Further properties of the views *)

(** ** Helpers *)

Lemma filter_drop_key {A} (f : A -> nat) i pk l :
  filter (fun x => Nat.eqb (f x) i) (filter (fun x => negb (Nat.eqb (f x) pk)) l) =
  if Nat.eqb i pk then [] else filter (fun x => Nat.eqb (f x) i) l.
Proof.
  induction l as [|x l IH]; simpl; [destruct (Nat.eqb i pk); reflexivity|].
  destruct (Nat.eqb_spec (f x) pk) as [E|E]; simpl.
  - rewrite IH. destruct (Nat.eqb_spec i pk); [reflexivity|].
    destruct (Nat.eqb_spec (f x) i); [congruence|reflexivity].
  - destruct (Nat.eqb_spec (f x) i) as [E'|E']; rewrite IH;
      destruct (Nat.eqb_spec i pk); first [reflexivity|congruence].
Qed.

Lemma find_drop_key {A} (f : A -> nat) i pk l :
  find (fun x => Nat.eqb (f x) i) (filter (fun x => negb (Nat.eqb (f x) pk)) l) =
  if Nat.eqb i pk then None else find (fun x => Nat.eqb (f x) i) l.
Proof.
  induction l as [|x l IH]; simpl; [destruct (Nat.eqb i pk); reflexivity|].
  destruct (Nat.eqb_spec (f x) pk) as [E|E]; simpl.
  - rewrite IH. destruct (Nat.eqb_spec i pk); [reflexivity|].
    destruct (Nat.eqb_spec (f x) i); [congruence|reflexivity].
  - destruct (Nat.eqb_spec (f x) i) as [E'|E']; [|rewrite IH];
      destruct (Nat.eqb_spec i pk); first [reflexivity|congruence].
Qed.

(** [order.save()] replaces the rows with the instance's key. *)
Lemma find_order_write_any o s i :
  find_order (write_order o s) i =
  option_map (fun x => if Nat.eqb (order_id x) (order_id o) then o else x) (find_order s i).
Proof.
  unfold find_order, write_order; simpl. induction (orders s) as [|x os IH]; simpl; [reflexivity|].
  destruct (Nat.eqb_spec (order_id x) (order_id o)) as [E|E]; simpl.
  - replace (Nat.eqb (order_id o) i) with (Nat.eqb (order_id x) i) by (rewrite E; reflexivity).
    destruct (Nat.eqb (order_id x) i); [|exact IH].
    simpl. rewrite E, Nat.eqb_refl. reflexivity.
  - destruct (Nat.eqb (order_id x) i); [|exact IH].
    simpl. apply Nat.eqb_neq in E. rewrite E. reflexivity.
Qed.

Lemma WF_filter_lines p s :
  WF s -> WF (mkStore (dishes s) (orders s) (filter p (orderdishes s)) (next_order_id s)).
Proof.
  intros [H1 [H2 [H3 H4]]]. split; [exact H1|]. split; [|split; [exact H3|]].
  - simpl. rewrite Forall_forall in *. intros k Hk. apply H2.
    apply in_map_iff in Hk as [l [<- Hl]]. apply filter_In in Hl as [Hl _]. apply in_map. exact Hl.
  - unfold Uniq; simpl. apply NoDup_map_filter. exact H4.
Qed.

Lemma WF_remove_line l s : WF s -> WF (remove_line l s).
Proof. apply (WF_filter_lines (fun x => negb (line_is (od_order l) (od_dish l) x))). Qed.

Lemma WF_delete_order o s : WF s -> WF (delete_order o s).
Proof.
  intros Hw.
  apply (WF_filter_lines (fun l => negb (Nat.eqb (od_order l) (order_id o)))) in Hw.
  destruct Hw as [H1 [H2 [H3 H4]]].
  split; [|split; [exact H2|split; [exact H3|exact H4]]].
  simpl in *. rewrite Forall_forall in *. intros i Hi. apply H1.
  apply in_map_iff in Hi as [x [<- Hx]]. apply filter_In in Hx as [Hx _]. apply in_map. exact Hx.
Qed.

Lemma WF_order_remove_dish_post oid did s : WF s -> WF (snd (order_remove_dish_post oid did s)).
Proof.
  intros Hw. destruct did as [did|].
  - rewrite order_remove_dish_post_eq.
    destruct (find_order s oid) as [o|]; [|exact Hw].
    destruct (find_dish s did) as [d|]; [|exact Hw].
    destruct (lines_for s (order_id o) (dish_id d)) as [|l [|l2 r]]; try exact Hw.
    simpl. apply WF_write_order.
    destruct (Nat.ltb 1 (quantity l)); [apply WF_write_line|apply WF_remove_line]; exact Hw.
  - unfold order_remove_dish_post, bind, get_order_or_404.
    destruct (find_order s oid); exact Hw.
Qed.

Lemma WF_order_delete_get pk s : WF s -> WF (snd (order_delete_get pk s)).
Proof.
  intros Hw. unfold order_delete_get, bind, get_order_or_404, modify.
  destruct (find_order s pk); [apply WF_delete_order|]; exact Hw.
Qed.

Lemma WF_api_update pk v s : WF s -> WF (snd (api_update pk v s)).
Proof.
  intros Hw. unfold api_update, bind at 1, get_order_or_404.
  destruct (find_order s pk) as [o|]; [|exact Hw].
  destruct (api_update_valid v); [|exact Hw].
  cbv zeta. unfold bind, save_order, modify, serializer_data, raise, ret.
  destruct (au_items v); apply WF_write_order; exact Hw.
Qed.

Lemma WF_order_list_post f s : WF s -> WF (snd (order_list_post f s)).
Proof.
  intros Hw. unfold order_list_post. destruct (create_form_valid s f); [|exact Hw].
  unfold bind, save_new_order.
  assert (Hw1 := WF_insert_order (match cf_table f with Some t => t | None => 0 end)
                   (cf_status f) 0 s Hw).
  destruct (insert_order _ _ _ s) as [o s1]. simpl in *.
  apply WF_write_order. exact Hw1.
Qed.

(** ** Deleting an order *)

(** [OrderDeleteView.get] on an existing order deletes the order and,
    through the cascade, every line of it; the other orders, their lines
    and the dishes stay as they were. *)
Theorem order_delete_get_cascade s pk o :
  find_order s pk = Some o ->
  exists s', order_delete_get pk s = (inr tt, s') /\
    find_order s' pk = None /\ lines_of s' pk = [] /\
    (forall i, i <> pk -> find_order s' i = find_order s i /\ lines_of s' i = lines_of s i) /\
    dishes s' = dishes s.
Proof.
  intros Hf. destruct (find_order_some _ _ _ Hf) as [Hid _].
  exists (delete_order o s). split.
  { unfold order_delete_get, bind, get_order_or_404, modify. rewrite Hf. reflexivity. }
  unfold find_order, lines_of, delete_order; cbn [orders orderdishes dishes].
  rewrite Hid, (find_drop_key order_id), (filter_drop_key od_order), Nat.eqb_refl.
  split; [reflexivity|]. split; [reflexivity|]. split; [|reflexivity].
  intros i Hi. apply Nat.eqb_neq in Hi.
  rewrite (find_drop_key order_id), (filter_drop_key od_order), Hi. auto.
Qed.

Lemma order_delete_get_cascade_witness :
  find_order two_orders 1 = Some (mkOrder 1 3 "ready" 2500) /\
  exists s', order_delete_get 1 two_orders = (inr tt, s') /\
    find_order s' 1 = None /\ lines_of s' 1 = [] /\
    (forall i, i <> 1%nat -> find_order s' i = find_order two_orders i /\
                           lines_of s' i = lines_of two_orders i) /\
    dishes s' = dishes two_orders.
Proof.
  split; [reflexivity|].
  exact (order_delete_get_cascade two_orders 1%nat (mkOrder 1 3 "ready" 2500) eq_refl).
Defined.

(** ** Requests that write nothing *)

(** On an order key that names no order, the update, remove-dish and
    delete views and the API update raise [Http404] before any write. A
    remove-dish request without a dish id writes nothing either: it only
    redirects, or raises [Http404] when the order does not exist. *)
Theorem views_missing_order_404 s pk :
  (find_order s pk = None ->
   (forall req, order_update_post pk req s = (inl Http404, s)) /\
   (forall did, order_remove_dish_post pk did s = (inl Http404, s)) /\
   order_delete_get pk s = (inl Http404, s) /\
   (forall v, api_update pk v s = (inl Http404, s))) /\
  order_remove_dish_post pk None s =
    (match find_order s pk with Some _ => inr tt | None => inl Http404 end, s).
Proof.
  split.
  - intros Hf. split; [|split; [|split]].
    + intros req. rewrite order_update_post_eq, Hf. reflexivity.
    + intros did. unfold order_remove_dish_post, bind, get_order_or_404. rewrite Hf. reflexivity.
    + unfold order_delete_get, bind, get_order_or_404. rewrite Hf. reflexivity.
    + intros v. unfold api_update, bind, get_order_or_404. rewrite Hf. reflexivity.
  - unfold order_remove_dish_post, bind, get_order_or_404, ret.
    destruct (find_order s pk); reflexivity.
Qed.

Lemma views_missing_order_404_witness :
  find_order two_orders 7 = None /\
  order_delete_get 7 two_orders = (inl Http404, two_orders) /\
  order_remove_dish_post 1 None two_orders = (inr tt, two_orders).
Proof.
  split; [reflexivity|]. split.
  - exact (proj1 (proj2 (proj2 (proj1 (views_missing_order_404 two_orders 7%nat) eq_refl)))).
  - exact (proj2 (views_missing_order_404 two_orders 1%nat)).
Defined.

(** ** Well-formedness kept by the other views *)

(** The remove-dish view, the delete view, the API update and the order
    list's POST keep the database well-formed (keys below the sequence,
    distinct dish keys, at most one line per order and dish), whether they
    succeed or fail. *)
Theorem WF_other_views s :
  WF s ->
  (forall oid did, WF (snd (order_remove_dish_post oid did s))) /\
  (forall pk, WF (snd (order_delete_get pk s))) /\
  (forall pk v, WF (snd (api_update pk v s))) /\
  (forall f, WF (snd (order_list_post f s))).
Proof.
  intros Hw. split; [|split; [|split]]; intros.
  - apply WF_order_remove_dish_post; exact Hw.
  - apply WF_order_delete_get; exact Hw.
  - apply WF_api_update; exact Hw.
  - apply WF_order_list_post; exact Hw.
Qed.

Lemma WF_two_orders : WF two_orders.
Proof.
  unfold WF, Uniq, key; simpl.
  repeat split;
    repeat first [apply Forall_nil | apply NoDup_nil
                 | apply Forall_cons; [simpl; lia|]
                 | apply NoDup_cons; [simpl; intuition congruence|]].
Qed.

Lemma WF_other_views_witness :
  WF two_orders /\ WF (snd (order_remove_dish_post 1 (Some 1%nat) two_orders)) /\
  WF (snd (order_delete_get 1 two_orders)).
Proof.
  split; [exact WF_two_orders|]. split.
  - exact (proj1 (WF_other_views two_orders WF_two_orders) 1%nat (Some 1%nat)).
  - exact (proj1 (proj2 (WF_other_views two_orders WF_two_orders)) 1%nat).
Defined.

(** ** Creating an order from the order list *)

(** The order list's POST either inserts one order, with the next key,
    the submitted table and status and [total_price] 0, and never any
    order line (the selected dishes only reach the many-to-many table), or,
    on an invalid form, writes nothing. *)
Theorem order_list_post_no_lines s f :
  WF s ->
  fst (order_list_post f s) = inr tt /\
  orderdishes (snd (order_list_post f s)) = orderdishes s /\
  (create_form_valid s f = true ->
     find_order (snd (order_list_post f s)) (next_order_id s) =
       Some (mkOrder (next_order_id s) (match cf_table f with Some t => t | None => 0 end)
               (cf_status f) 0) /\
     lines_of (snd (order_list_post f s)) (next_order_id s) = []) /\
  (create_form_valid s f = false -> snd (order_list_post f s) = s).
Proof.
  intros [H1 [H2 _]]. unfold order_list_post.
  destruct (create_form_valid s f); [|simpl; repeat split; auto; discriminate].
  unfold bind, save_new_order, insert_order, save_order, modify. cbv zeta. simpl.
  split; [reflexivity|]. split; [reflexivity|]. split; [|discriminate].
  intros _. split.
  - rewrite find_order_write_any. unfold find_order; simpl.
    rewrite find_appended; [simpl; rewrite Nat.eqb_refl; reflexivity|exact H1|reflexivity].
  - unfold lines_of; simpl. apply filter_old_lines. exact H2.
Qed.

Lemma order_list_post_no_lines_witness :
  WF catalog /\ create_form_valid catalog create_form_3 = true /\
  find_order (snd (order_list_post create_form_3 catalog)) 1 = Some (mkOrder 1 3 "pending" 0) /\
  lines_of (snd (order_list_post create_form_3 catalog)) 1 = [].
Proof.
  assert (Hw : WF catalog).
  { unfold WF, Uniq; simpl. repeat constructor; simpl; intuition lia. }
  split; [exact Hw|]. split; [reflexivity|].
  exact (proj1 (proj2 (proj2 (order_list_post_no_lines catalog create_form_3 Hw))) eq_refl).
Defined.

(** ** Creating an order through the API *)

(** The API create never answers with success. A request the serializer
    rejects (no table number, no items list, a status outside the choices
    or a total that does not fit [DecimalField(max_digits=10,
    decimal_places=2)]) raises [ValidationError] and writes nothing. An
    accepted request inserts the order with the next key, the given table,
    the given status (default pending) and the given [total_price]
    (default 0); it then raises [IntegrityError] on its first item or,
    with an empty items list, [AttributeError] while rendering the
    response, the inserted order staying stored. No order line is ever
    written. *)
Theorem api_create_effects v s :
  WF s ->
  fst (api_create v s) <> inr tt /\
  (api_create_valid v = true ->
   fst (api_create v s) =
     inl (match ac_items v with Some (_ :: _) => IntegrityError | _ => AttributeError end) /\
   orderdishes (snd (api_create v s)) = orderdishes s /\
   find_order (snd (api_create v s)) (next_order_id s) =
     Some (mkOrder (next_order_id s) (match ac_table v with Some t => t | None => 0 end)
             (match ac_status v with Some st => st | None => "pending" end)
             (match ac_total v with Some t => t | None => 0 end))) /\
  (api_create_valid v = false -> api_create v s = (inl ValidationError, s)).
Proof.
  intros [H1 _].
  assert (Hok : api_create_valid v = true ->
   fst (api_create v s) =
     inl (match ac_items v with Some (_ :: _) => IntegrityError | _ => AttributeError end) /\
   orderdishes (snd (api_create v s)) = orderdishes s /\
   find_order (snd (api_create v s)) (next_order_id s) =
     Some (mkOrder (next_order_id s) (match ac_table v with Some t => t | None => 0 end)
             (match ac_status v with Some st => st | None => "pending" end)
             (match ac_total v with Some t => t | None => 0 end))).
  { intros Hv. unfold api_create. rewrite Hv. unfold bind, save_new_order, insert_order.
    cbv zeta.
    destruct (ac_items v) as [[|q rest]|]; simpl;
      (split; [reflexivity|split; [reflexivity|]]);
      unfold find_order; simpl; apply find_appended; auto. }
  assert (Hbad : api_create_valid v = false -> api_create v s = (inl ValidationError, s)).
  { intros Hv. unfold api_create. rewrite Hv. reflexivity. }
  split; [|split; assumption].
  destruct (api_create_valid v) eqn:Hv.
  - rewrite (proj1 (Hok eq_refl)). discriminate.
  - rewrite (Hbad eq_refl). discriminate.
Qed.

Lemma api_create_effects_witness :
  WF catalog /\
  api_create_valid (mkApiCreateData (Some 4) None (Some 9900) (Some [2%nat])) = true /\
  fst (api_create (mkApiCreateData (Some 4) None (Some 9900) (Some [2%nat])) catalog)
    = inl IntegrityError /\
  orderdishes (snd (api_create (mkApiCreateData (Some 4) None (Some 9900) (Some [2%nat])) catalog))
    = [] /\
  find_order (snd (api_create (mkApiCreateData (Some 4) None (Some 9900) (Some [2%nat])) catalog)) 1
    = Some (mkOrder 1 4 "pending" 9900) /\
  api_create (mkApiCreateData (Some 4) None (Some 10000000000) (Some [])) catalog
    = (inl ValidationError, catalog).
Proof.
  assert (Hw : WF catalog).
  { unfold WF, Uniq; simpl. repeat constructor; simpl; intuition lia. }
  split; [exact Hw|]. split; [reflexivity|].
  split; [exact (proj1 (proj1 (proj2 (api_create_effects
            (mkApiCreateData (Some 4) None (Some 9900) (Some [2%nat])) catalog Hw)) eq_refl))|].
  split; [exact (proj1 (proj2 (proj1 (proj2 (api_create_effects
            (mkApiCreateData (Some 4) None (Some 9900) (Some [2%nat])) catalog Hw)) eq_refl)))|].
  split; [exact (proj2 (proj2 (proj1 (proj2 (api_create_effects
            (mkApiCreateData (Some 4) None (Some 9900) (Some [2%nat])) catalog Hw)) eq_refl)))|].
  exact (proj2 (proj2 (api_create_effects
            (mkApiCreateData (Some 4) None (Some 10000000000) (Some [])) catalog Hw)) eq_refl).
Defined.

(** ** Order lines under the update and remove-dish views *)

Lemma filter_line_is_nil o d ls :
  ~ In (o, d) (map key ls) -> filter (line_is o d) ls = [].
Proof. intros H. exact (proj2 (lines_for_nil (mkStore [] [] ls 0) o d) H). Qed.

Lemma lines_for_uniq s o d l1 l2 r : Uniq s -> lines_for s o d = l1 :: l2 :: r -> False.
Proof.
  unfold Uniq, lines_for. induction (orderdishes s) as [|x ls IH]; simpl; [discriminate|].
  intros Hnd. inversion Hnd as [|? ? Hx Hls]; subst.
  destruct (line_is o d x) eqn:E; [|exact (IH Hls)].
  intros H. injection H as _ H.
  apply line_is_key in E. rewrite E in Hx.
  rewrite (filter_line_is_nil o d ls Hx) in H. discriminate.
Qed.

Lemma lines_for_write_line_other l s o d :
  key l <> (o, d) -> lines_for (write_line l s) o d = lines_for s o d.
Proof.
  intros Hk. unfold lines_for, write_line; simpl.
  induction (orderdishes s) as [|x ls IH]; simpl; [reflexivity|].
  destruct (line_is (od_order l) (od_dish l) x) eqn:E.
  - assert (Hl : line_is o d l = false).
    { destruct (line_is o d l) eqn:F; [|reflexivity]. apply line_is_key in F. contradiction. }
    assert (Hx : line_is o d x = false).
    { destruct (line_is o d x) eqn:F; [|reflexivity]. exfalso. apply Hk.
      apply line_is_key in E. apply line_is_key in F.
      change (key l) with (od_order l, od_dish l). rewrite <- E. exact F. }
    rewrite Hl, Hx. exact IH.
  - destruct (line_is o d x); [f_equal|]; exact IH.
Qed.

Lemma lines_for_write_line_at l s o d x :
  key l = (o, d) -> lines_for s o d = [x] -> lines_for (write_line l s) o d = [l].
Proof.
  unfold key. intros Hk. injection Hk as <- <-. rewrite lines_for_write_line.
  intros ->. reflexivity.
Qed.

Lemma line_qty_insert l s o d :
  line_qty (insert_line l s) o d = (line_qty s o d + if line_is o d l then quantity l else 0)%nat.
Proof.
  unfold line_qty. rewrite lines_for_insert, map_app, list_sum_app.
  destruct (line_is o d l); simpl; lia.
Qed.

Lemma line_qty_write_other l s o d :
  key l <> (o, d) -> line_qty (write_line l s) o d = line_qty s o d.
Proof. intros H. unfold line_qty. rewrite lines_for_write_line_other by exact H. reflexivity. Qed.

Lemma set_quantity_same l : set_quantity l (quantity l) = l.
Proof. destruct l; reflexivity. Qed.

Lemma filter_negb_all {A} (p : A -> bool) l :
  filter p l = [] -> filter (fun x => negb (p x)) l = l.
Proof.
  induction l as [|x l IH]; simpl; [reflexivity|].
  destruct (p x); [discriminate|]. simpl. intros H. f_equal. exact (IH H).
Qed.

Lemma write_line_twice l l' s :
  key l = key l' -> orderdishes (write_line l (write_line l' s)) = orderdishes (write_line l s).
Proof.
  unfold key. intros Hk. injection Hk as H1 H2. simpl. rewrite map_map. apply map_ext.
  intros x. rewrite H1, H2. destruct (line_is (od_order l') (od_dish l') x) eqn:E;
    [|rewrite E; reflexivity].
  unfold line_is. rewrite !Nat.eqb_refl. reflexivity.
Qed.

Lemma write_line_self l s :
  lines_for s (od_order l) (od_dish l) = [l] -> orderdishes (write_line l s) = orderdishes s.
Proof.
  unfold lines_for. intros H. simpl.
  transitivity (map (fun x => x) (orderdishes s)); [|apply map_id].
  apply map_ext_in. intros x Hx.
  destruct (line_is (od_order l) (od_dish l) x) eqn:E; [|reflexivity].
  assert (Hin : In x (filter (line_is (od_order l) (od_dish l)) (orderdishes s)))
    by (apply filter_In; auto).
  rewrite H in Hin. destruct Hin as [<-|[]]. reflexivity.
Qed.

Lemma perm_remove_append k1 k2 l ls :
  filter (line_is k1 k2) ls = [l] ->
  Permutation (filter (fun x => negb (line_is k1 k2 x)) ls ++ [l])%list ls.
Proof.
  induction ls as [|x ls IH]; simpl; [discriminate|].
  destruct (line_is k1 k2 x) eqn:E; simpl.
  - intros H. injection H as -> Hnil. rewrite (filter_negb_all _ _ Hnil).
    apply Permutation_sym, Permutation_cons_append.
  - intros H. constructor. apply IH. exact H.
Qed.

Lemma Permutation_filter_lines {A} (f : A -> bool) l l' :
  Permutation l l' -> Permutation (filter f l) (filter f l').
Proof.
  induction 1 as [|x l l' _ IH|x y l|l l' l'' _ IH1 _ IH2]; simpl.
  - constructor.
  - destruct (f x); [constructor|]; exact IH.
  - destruct (f x), (f y); try apply perm_swap; reflexivity.
  - eapply Permutation_trans; eassumption.
Qed.

Lemma fold_sum_shift (g : OrderDish -> Z) l a :
  fold_left (fun acc x => acc + g x) l a = a + fold_left (fun acc x => acc + g x) l 0.
Proof.
  revert a. induction l as [|x l IH]; intros a; cbn [fold_left]; [lia|].
  rewrite (IH (a + g x)), (IH (0 + g x)). lia.
Qed.

Lemma fold_sum_perm (g : OrderDish -> Z) l l' :
  Permutation l l' ->
  fold_left (fun acc x => acc + g x) l 0 = fold_left (fun acc x => acc + g x) l' 0.
Proof.
  induction 1 as [|x l l' _ IH|x y l|l l' l'' _ IH1 _ IH2]; cbn [fold_left].
  - reflexivity.
  - rewrite (fold_sum_shift g l), (fold_sum_shift g l'), IH. reflexivity.
  - rewrite (fold_sum_shift g l (0 + g y + g x)), (fold_sum_shift g l (0 + g x + g y)). lia.
  - congruence.
Qed.

Lemma line_sum_perm s1 s k :
  dishes s1 = dishes s -> Permutation (orderdishes s1) (orderdishes s) ->
  line_sum s1 k = line_sum s k.
Proof.
  intros Hd Hp. unfold line_sum, lines_of, dish_price, find_dish. rewrite Hd.
  apply (fold_sum_perm (fun l => match find (fun d => Nat.eqb (dish_id d) (od_dish l)) (dishes s)
                                  with Some x => price x | None => 0 end * Z.of_nat (quantity l))).
  apply Permutation_filter_lines. exact Hp.
Qed.

Lemma line_qty_perm s1 s o d :
  Permutation (orderdishes s1) (orderdishes s) -> line_qty s1 o d = line_qty s o d.
Proof.
  intros Hp. unfold line_qty, lines_for. apply Permutation_list_sum.
  apply Permutation_map, Permutation_filter_lines. exact Hp.
Qed.

(** The dish loop of the update view, with every id naming a dish and at
    most one line per (order, dish) pair, succeeds and adds to each
    (order, dish) pair of the order as many units as the id occurs. *)
Lemma add_dishes_qty o ids s :
  Uniq s -> (forall did, In did ids -> find_dish s did <> None) ->
  exists s', add_dishes o ids s = (inr tt, s') /\ dishes s' = dishes s /\
    forall o' d, line_qty s' o' d =
      (line_qty s o' d + if Nat.eqb o' (order_id o) then count_occ Nat.eq_dec ids d else 0)%nat.
Proof.
  revert s. induction ids as [|did ids IH]; intros s Hu Hd.
  - exists s. split; [reflexivity|]. split; [reflexivity|].
    intros o' d. destruct (Nat.eqb o' (order_id o)); simpl; lia.
  - rewrite add_dishes_cons.
    destruct (find_dish s did) as [dish|] eqn:Ed;
      [|exfalso; apply (Hd did); [left; reflexivity|exact Ed]].
    destruct (find_dish_some _ _ _ Ed) as [Hdid _]. rewrite Hdid.
    assert (Hd' : forall s1, dishes s1 = dishes s -> forall x, In x ids -> find_dish s1 x <> None).
    { intros s1 Hs1 x Hx. unfold find_dish. rewrite Hs1. apply Hd. right. exact Hx. }
    destruct (lines_for s (order_id o) did) as [|l [|l2 r]] eqn:El.
    + destruct (IH (insert_line (mkOrderDish (order_id o) did 1) s)
                  (Uniq_insert _ _ _ El Hu) (Hd' _ eq_refl)) as [s' [Hrun [Hds Hq]]].
      exists s'. split; [exact Hrun|]. split; [exact Hds|]. intros o' d. rewrite Hq.
      rewrite line_qty_insert. unfold line_is; simpl.
      destruct (Nat.eqb_spec o' (order_id o)) as [->|Ho].
      * rewrite Nat.eqb_refl; simpl. destruct (Nat.eq_dec did d) as [->|Hne].
        -- rewrite Nat.eqb_refl. simpl. lia.
        -- apply Nat.eqb_neq in Hne. rewrite Hne. lia.
      * rewrite (proj2 (Nat.eqb_neq (order_id o) o')) by congruence. simpl. lia.
    + destruct (lines_for_key s (order_id o) did l) as [Hlo Hld]; [rewrite El; left; reflexivity|].
      assert (Hk : key (set_quantity l (S (quantity l))) = (order_id o, did))
        by (unfold key; simpl; rewrite Hlo, Hld; reflexivity).
      destruct (IH (write_line (set_quantity l (S (quantity l))) s)
                  (Uniq_write_line _ _ Hu) (Hd' _ eq_refl)) as [s' [Hrun [Hds Hq]]].
      exists s'. split; [exact Hrun|]. split; [exact Hds|]. intros o' d. rewrite Hq.
      destruct (Nat.eqb_spec o' (order_id o)) as [->|Ho];
        [destruct (Nat.eq_dec did d) as [<-|Hne]|].
      * unfold line_qty at 1.
        rewrite (lines_for_write_line_at _ _ _ _ l Hk El), count_occ_cons_eq by reflexivity.
        unfold line_qty. rewrite El. simpl. lia.
      * rewrite line_qty_write_other by (rewrite Hk; congruence).
        rewrite count_occ_cons_neq by exact Hne. reflexivity.
      * rewrite line_qty_write_other by (rewrite Hk; congruence). reflexivity.
    + exfalso. exact (lines_for_uniq _ _ _ _ _ _ Hu El).
Qed.

(** An update request whose dish ids all name dishes, on a database with
    at most one line per (order, dish) pair, succeeds, and the number of
    units of each dish in the order grows by the number of times the
    request lists the dish; the lines of the other orders keep their
    quantities. *)
Theorem order_update_post_quantities s pk req o :
  Uniq s -> find_order s pk = Some o ->
  (forall did, In did (ur_dishes req) -> find_dish s did <> None) ->
  exists s', order_update_post pk req s = (inr tt, s') /\
    forall o' d, line_qty s' o' d =
      (line_qty s o' d + if Nat.eqb o' pk then count_occ Nat.eq_dec (ur_dishes req) d else 0)%nat.
Proof.
  intros Hu Hf Hd. destruct (find_order_some _ _ _ Hf) as [Hid _].
  rewrite order_update_post_eq, Hf. cbv zeta.
  destruct (status_store_lines req o s) as [Hl Hds].
  assert (Hu' : Uniq (status_store req o s)) by (unfold Uniq; rewrite Hl; exact Hu).
  assert (Hd' : forall did, In did (ur_dishes req) -> find_dish (status_store req o s) did <> None)
    by (intros did Hin; unfold find_dish; rewrite Hds; apply Hd; exact Hin).
  destruct (add_dishes_qty (applied_status req o) (ur_dishes req) _ Hu' Hd')
    as [s2 [Hrun [_ Hq]]].
  rewrite Hrun. eexists. split; [reflexivity|]. intros o' d.
  transitivity (line_qty s2 o' d); [reflexivity|].
  rewrite Hq, applied_status_id, Hid. unfold line_qty, lines_for. rewrite Hl. reflexivity.
Qed.

Lemma Uniq_two_orders : Uniq two_orders.
Proof. exact (proj2 (proj2 (proj2 WF_two_orders))). Qed.

Lemma order_update_post_quantities_witness :
  Uniq two_orders /\ find_order two_orders 1 = Some (mkOrder 1 3 "ready" 2500) /\
  exists s', order_update_post 1 (mkUpdateRequest false None [2%nat; 1%nat; 2%nat]) two_orders
               = (inr tt, s') /\
    forall o' d, line_qty s' o' d =
      (line_qty two_orders o' d +
       if Nat.eqb o' 1 then count_occ Nat.eq_dec [2%nat; 1%nat; 2%nat] d else 0)%nat.
Proof.
  split; [exact Uniq_two_orders|]. split; [reflexivity|].
  apply (order_update_post_quantities two_orders 1%nat
           (mkUpdateRequest false None [2%nat; 1%nat; 2%nat]) (mkOrder 1 3 "ready" 2500)
           Uniq_two_orders eq_refl).
  intros did Hin. simpl in Hin.
  destruct Hin as [<-|[<-|[<-|[]]]]; intros H; discriminate H.
Defined.

(** ** Adding a dish and removing it again *)

(** On a database with at most one line per (order, dish) pair, an update
    request adding one unit of a dish, followed by a remove-dish request
    for the same dish, gives back exactly the order lines the database had
    before, and the stored total of the order is the sum over them. The
    round trip needs the dish's line, when there is one, to hold at least
    one unit: a line of quantity 0 would be deleted by the removal. *)
Theorem add_then_remove_restores s pk did o dish :
  Uniq s -> find_order s pk = Some o -> find_dish s did = Some dish ->
  (forall l, In l (lines_for s pk did) -> (1 <= quantity l)%nat) ->
  exists s1 s2,
    order_update_post pk (mkUpdateRequest false None [did]) s = (inr tt, s1) /\
    order_remove_dish_post pk (Some did) s1 = (inr tt, s2) /\
    orderdishes s2 = orderdishes s /\
    find_order s2 pk = Some (set_total o (line_sum s pk)).
Proof.
  intros Hu Hf Hd Hpos. destruct (find_order_some _ _ _ Hf) as [Hid Hin].
  destruct (find_dish_some _ _ _ Hd) as [Hdid _].
  rewrite (order_update_post_one_dish pk did s o dish Hf Hd).
  destruct (lines_for s pk did) as [|l [|l2 r]] eqn:El; cbv zeta;
    [| |exfalso; exact (lines_for_uniq _ _ _ _ _ _ Hu El)].
  - set (sa := insert_line (mkOrderDish pk did 1) s).
    set (s1 := write_order (set_total o (line_sum sa pk)) sa).
    assert (Hf1 : find_order s1 pk = Some (set_total o (line_sum sa pk)))
      by (apply find_order_write_pk; [exact Hid|exists o; split; [exact Hin|exact Hid]]).
    assert (Hl1 : lines_for s1 pk did = [mkOrderDish pk did 1]).
    { change (lines_for sa pk did = [mkOrderDish pk did 1]). unfold sa.
      rewrite lines_for_insert, El. unfold line_is; simpl. rewrite !Nat.eqb_refl. reflexivity. }
    set (s2 := remove_line (mkOrderDish pk did 1) s1).
    assert (Hr : order_remove_dish_post pk (Some did) s1 =
                 (inr tt, write_order (set_total (set_total o (line_sum sa pk)) (line_sum s2 pk)) s2)).
    { rewrite order_remove_dish_post_eq, Hf1. change (find_dish s1 did) with (find_dish s did).
      rewrite Hd. change (order_id (set_total o (line_sum sa pk))) with (order_id o).
      rewrite Hid, Hdid, Hl1. reflexivity. }
    assert (Hod : orderdishes s2 = orderdishes s).
    { unfold s2, s1, sa, remove_line, write_order, insert_line. cbn [orderdishes od_order od_dish].
      rewrite filter_app. unfold line_is at 2. simpl. rewrite !Nat.eqb_refl. simpl.
      rewrite app_nil_r. apply filter_negb_all. exact El. }
    exists s1, (write_order (set_total (set_total o (line_sum sa pk)) (line_sum s2 pk)) s2).
    split; [reflexivity|]. split; [exact Hr|]. split; [exact Hod|].
    destruct (order_remove_dish_post_total _ _ _ _ Hr) as [o' [Ho' Hf2]].
    rewrite Hf1 in Ho'. injection Ho' as <-. rewrite Hf2.
    f_equal. unfold set_total. cbn [order_id table_number status total_price]. f_equal.
    apply line_sum_ext; [reflexivity|exact Hod].
  - assert (Hq := Hpos l (or_introl eq_refl)).
    destruct (lines_for_key s pk did l) as [Hlo Hld]; [rewrite El; left; reflexivity|].
    set (l1 := set_quantity l (S (quantity l))).
    set (sa := write_line l1 s).
    set (s1 := write_order (set_total o (line_sum sa pk)) sa).
    assert (Hf1 : find_order s1 pk = Some (set_total o (line_sum sa pk)))
      by (apply find_order_write_pk; [exact Hid|exists o; split; [exact Hin|exact Hid]]).
    assert (Hk1 : key l1 = (pk, did)) by (unfold key, l1; simpl; rewrite Hlo, Hld; reflexivity).
    assert (Hl1 : lines_for s1 pk did = [l1]) by exact (lines_for_write_line_at l1 s pk did l Hk1 El).
    set (s2 := write_line (set_quantity l1 (Nat.pred (quantity l1))) s1).
    assert (Hr : order_remove_dish_post pk (Some did) s1 =
                 (inr tt, write_order (set_total (set_total o (line_sum sa pk)) (line_sum s2 pk)) s2)).
    { rewrite order_remove_dish_post_eq, Hf1. change (find_dish s1 did) with (find_dish s did).
      rewrite Hd. change (order_id (set_total o (line_sum sa pk))) with (order_id o).
      rewrite Hid, Hdid, Hl1. cbv zeta.
      replace (Nat.ltb 1 (quantity l1)) with true
        by (symmetry; apply Nat.ltb_lt; unfold l1; simpl; lia).
      reflexivity. }
    assert (Hod : orderdishes s2 = orderdishes s).
    { assert (E : set_quantity l1 (Nat.pred (quantity l1)) = l) by (unfold l1; destruct l; reflexivity).
      unfold s2. rewrite E.
      change (orderdishes (write_line l (write_line l1 s)) = orderdishes s).
      rewrite write_line_twice by (unfold key, l1; reflexivity).
      apply write_line_self. rewrite Hlo, Hld. exact El. }
    exists s1, (write_order (set_total (set_total o (line_sum sa pk)) (line_sum s2 pk)) s2).
    split; [reflexivity|]. split; [exact Hr|]. split; [exact Hod|].
    destruct (order_remove_dish_post_total _ _ _ _ Hr) as [o' [Ho' Hf2]].
    rewrite Hf1 in Ho'. injection Ho' as <-. rewrite Hf2.
    f_equal. unfold set_total. cbn [order_id table_number status total_price]. f_equal.
    apply line_sum_ext; [reflexivity|exact Hod].
Qed.

Lemma add_then_remove_restores_witness :
  Uniq two_orders /\
  exists s1 s2,
    order_update_post 1 (mkUpdateRequest false None [1%nat]) two_orders = (inr tt, s1) /\
    order_remove_dish_post 1 (Some 1%nat) s1 = (inr tt, s2) /\
    orderdishes s2 = orderdishes two_orders /\
    find_order s2 1 = Some (set_total (mkOrder 1 3 "ready" 2500) (line_sum two_orders 1)).
Proof.
  split; [exact Uniq_two_orders|].
  apply (add_then_remove_restores two_orders 1%nat 1%nat (mkOrder 1 3 "ready" 2500) pizza
           Uniq_two_orders eq_refl eq_refl).
  intros l Hl. simpl in Hl. destruct Hl as [<-|[]]. simpl. lia.
Defined.

(** A remove-dish request on a line holding at least one unit, followed
    by an update request adding the dish back, restores the order lines:
    exactly when the line held two units or more, and up to the order of
    the rows when it held one (the line, deleted and then created again,
    comes last). Either way the stored total of the order is the sum over
    the original lines. *)
Theorem remove_then_add_restores s pk did o dish l :
  find_order s pk = Some o -> find_dish s did = Some dish -> lines_for s pk did = [l] ->
  (1 <= quantity l)%nat ->
  exists s1 s2,
    order_remove_dish_post pk (Some did) s = (inr tt, s1) /\
    order_update_post pk (mkUpdateRequest false None [did]) s1 = (inr tt, s2) /\
    Permutation (orderdishes s2) (orderdishes s) /\
    ((2 <= quantity l)%nat -> orderdishes s2 = orderdishes s) /\
    find_order s2 pk = Some (set_total o (line_sum s pk)).
Proof.
  intros Hf Hd El Hq. destruct (find_order_some _ _ _ Hf) as [Hid Hin].
  destruct (find_dish_some _ _ _ Hd) as [Hdid _].
  destruct (lines_for_key s pk did l) as [Hlo Hld]; [rewrite El; left; reflexivity|].
  assert (Hrun := order_remove_dish_post_eq pk did s).
  rewrite Hf, Hd, Hid, Hdid, El in Hrun. cbv zeta in Hrun.
  destruct (Nat.ltb_spec 1 (quantity l)) as [Hgt|Hle].
  - set (lr := set_quantity l (Nat.pred (quantity l))) in Hrun.
    set (sr := write_line lr s) in Hrun.
    set (s1 := write_order (set_total o (line_sum sr pk)) sr) in Hrun.
    assert (Hf1 : find_order s1 pk = Some (set_total o (line_sum sr pk)))
      by (apply find_order_write_pk; [exact Hid|exists o; split; [exact Hin|exact Hid]]).
    assert (Hkr : key lr = (pk, did)) by (unfold key, lr; simpl; rewrite Hlo, Hld; reflexivity).
    assert (Hl1 : lines_for s1 pk did = [lr]) by exact (lines_for_write_line_at lr s pk did l Hkr El).
    set (sa := write_line (set_quantity lr (S (quantity lr))) s1).
    assert (Hod : orderdishes sa = orderdishes s).
    { assert (E : set_quantity lr (S (quantity lr)) = l).
      { unfold lr, set_quantity. cbn [od_order od_dish quantity].
        replace (S (Nat.pred (quantity l))) with (quantity l) by lia. destruct l; reflexivity. }
      unfold sa. rewrite E.
      change (orderdishes (write_line l (write_line lr s)) = orderdishes s).
      rewrite write_line_twice by (unfold key, lr; reflexivity).
      apply write_line_self. rewrite Hlo, Hld. exact El. }
    assert (Hup : order_update_post pk (mkUpdateRequest false None [did]) s1 =
                  (inr tt, write_order (set_total (set_total o (line_sum sr pk)) (line_sum sa pk)) sa))
      by (rewrite (order_update_post_one_dish pk did s1 _ dish Hf1 Hd), Hl1; reflexivity).
    exists s1, (write_order (set_total (set_total o (line_sum sr pk)) (line_sum sa pk)) sa).
    split; [exact Hrun|]. split; [exact Hup|].
    split; [rewrite <- Hod; reflexivity|]. split; [intros _; exact Hod|].
    destruct (order_update_post_total _ _ _ _ Hup) as [o' [Ho' [Hf2 _]]].
    rewrite Hf1 in Ho'. injection Ho' as <-. rewrite Hf2.
    f_equal. unfold applied_status, set_total. cbn [status_change order_id table_number status total_price].
    f_equal. apply line_sum_ext; [reflexivity|exact Hod].
  - set (sr := remove_line l s) in Hrun.
    set (s1 := write_order (set_total o (line_sum sr pk)) sr) in Hrun.
    assert (Hf1 : find_order s1 pk = Some (set_total o (line_sum sr pk)))
      by (apply find_order_write_pk; [exact Hid|exists o; split; [exact Hin|exact Hid]]).
    assert (Hl1 : lines_for s1 pk did = []).
    { change (lines_for (remove_line l s) pk did = []). rewrite <- Hlo, <- Hld.
      apply lines_for_remove. }
    set (sa := insert_line (mkOrderDish pk did 1) s1).
    assert (El' : mkOrderDish pk did 1 = l)
      by (destruct l as [a b c]; simpl in *; subst; f_equal; lia).
    assert (Hperm : Permutation (orderdishes sa) (orderdishes s)).
    { change (Permutation (filter (fun x => negb (line_is (od_order l) (od_dish l) x))
                             (orderdishes s) ++ [mkOrderDish pk did 1])%list (orderdishes s)).
      rewrite El'. apply perm_remove_append. rewrite Hlo, Hld. exact El. }
    assert (Hup : order_update_post pk (mkUpdateRequest false None [did]) s1 =
                  (inr tt, write_order (set_total (set_total o (line_sum sr pk)) (line_sum sa pk)) sa))
      by (rewrite (order_update_post_one_dish pk did s1 _ dish Hf1 Hd), Hl1; reflexivity).
    exists s1, (write_order (set_total (set_total o (line_sum sr pk)) (line_sum sa pk)) sa).
    split; [exact Hrun|]. split; [exact Hup|].
    split; [exact Hperm|]. split; [intros; lia|].
    destruct (order_update_post_total _ _ _ _ Hup) as [o' [Ho' [Hf2 _]]].
    rewrite Hf1 in Ho'. injection Ho' as <-. rewrite Hf2.
    f_equal. unfold applied_status, set_total. cbn [status_change order_id table_number status total_price].
    f_equal. apply line_sum_perm; [reflexivity|exact Hperm].
Qed.

Lemma remove_then_add_restores_witness :
  lines_for two_orders 1 2 = [mkOrderDish 1 2 1] /\
  exists s1 s2,
    order_remove_dish_post 1 (Some 2%nat) two_orders = (inr tt, s1) /\
    order_update_post 1 (mkUpdateRequest false None [2%nat]) s1 = (inr tt, s2) /\
    Permutation (orderdishes s2) (orderdishes two_orders) /\
    ((2 <= 1)%nat -> orderdishes s2 = orderdishes two_orders) /\
    find_order s2 1 = Some (set_total (mkOrder 1 3 "ready" 2500) (line_sum two_orders 1)).
Proof.
  split; [reflexivity|].
  apply (remove_then_add_restores two_orders 1%nat 2%nat (mkOrder 1 3 "ready" 2500) salad
           (mkOrderDish 1 2 1) eq_refl eq_refl eq_refl).
  simpl. lia.
Defined.

(** ** The status written by the update view *)

(** When the update view returns its redirect, the order keeps its table
    number, and its status is the posted one only when the request carries
    ['status_change'] and a non-empty status; in every other case (no
    ['status_change'], or an empty or missing status) the stored status is
    kept. *)
Theorem order_update_post_status_rule pk req s s' :
  order_update_post pk req s = (inr tt, s') ->
  exists o o', find_order s pk = Some o /\ find_order s' pk = Some o' /\
    table_number o' = table_number o /\
    status o' = (if status_change req
                 then match truthy_str (ur_status req) with Some st => st | None => status o end
                 else status o).
Proof.
  intros H. destruct (order_update_post_total _ _ _ _ H) as [o [Hf [Hf' _]]].
  eexists o, _. split; [exact Hf|]. split; [exact Hf'|].
  unfold applied_status, set_total, set_status.
  destruct (status_change req); [destruct (truthy_str (ur_status req))|]; split; reflexivity.
Qed.

Lemma order_update_post_status_rule_witness :
  order_update_post 1 (mkUpdateRequest false (Some "paid") []) two_orders =
    (inr tt, snd (order_update_post 1 (mkUpdateRequest false (Some "paid") []) two_orders)) /\
  exists o o', find_order two_orders 1 = Some o /\
    find_order (snd (order_update_post 1 (mkUpdateRequest false (Some "paid") []) two_orders)) 1
      = Some o' /\
    table_number o' = table_number o /\
    status o' = (if status_change (mkUpdateRequest false (Some "paid") [])
                 then match truthy_str (ur_status (mkUpdateRequest false (Some "paid") [])) with
                      | Some st => st | None => status o end
                 else status o).
Proof.
  split; [vm_compute; reflexivity|].
  apply order_update_post_status_rule. vm_compute. reflexivity.
Defined.

(** ** The API update *)

Lemma api_update_eq pk v s :
  api_update pk v s =
  match find_order s pk with
  | None => (inl Http404, s)
  | Some o =>
      if api_update_valid v then
        (inl AttributeError,
         write_order
           (set_status (set_table o (match au_table v with Some t => t | None => table_number o end))
              (match au_status v with Some st => st | None => status o end)) s)
      else (inl ValidationError, s)
  end.
Proof.
  unfold api_update, bind, get_order_or_404.
  destruct (find_order s pk); [|reflexivity].
  destruct (api_update_valid v); [|reflexivity].
  unfold save_order, modify, ret, raise, serializer_data. destruct (au_items v); reflexivity.
Qed.

Lemma write_order_same_total s o x :
  order_id x = order_id o -> find_order s (order_id o) = Some o ->
  total_price x = total_price o ->
  forall i, option_map total_price (find_order (write_order x s) i) =
            option_map total_price (find_order s i).
Proof.
  intros Hx Hf Ht i. rewrite find_order_write_any.
  destruct (find_order s i) as [y|] eqn:Fy; simpl; [|reflexivity]. f_equal.
  destruct (Nat.eqb_spec (order_id y) (order_id x)) as [E|E]; [|reflexivity].
  destruct (find_order_some _ _ _ Fy) as [Hy _].
  rewrite <- Hx, <- E, Hy, Fy in Hf. injection Hf as ->. exact Ht.
Qed.

(** The API update, whatever its outcome, never touches the order lines,
    the dishes or the set of orders, and leaves every order's stored
    [total_price] as it was: the lines and the total of an order can drift
    apart through it. *)
Theorem api_update_frame pk v s :
  orderdishes (snd (api_update pk v s)) = orderdishes s /\
  dishes (snd (api_update pk v s)) = dishes s /\
  map order_id (orders (snd (api_update pk v s))) = map order_id (orders s) /\
  (forall i, option_map total_price (find_order (snd (api_update pk v s)) i) =
             option_map total_price (find_order s i)).
Proof.
  rewrite api_update_eq. destruct (find_order s pk) as [o|] eqn:Hf; [|auto].
  destruct (find_order_some _ _ _ Hf) as [Hid _].
  destruct (api_update_valid v); [|auto].
  simpl snd. split; [reflexivity|]. split; [reflexivity|]. split; [apply write_order_ids|].
  apply (write_order_same_total s o); [reflexivity|rewrite Hid; exact Hf|reflexivity].
Qed.



(** ** Searching *)

Lemma filter_filter_and {A} (p q : A -> bool) l :
  filter q (filter p l) = filter (fun x => p x && q x) l.
Proof.
  induction l as [|x l IH]; simpl; [reflexivity|].
  destruct (p x); simpl; [destruct (q x)|]; rewrite ?IH; reflexivity.
Qed.

Lemma filter_all_true {A} (l : list A) : filter (fun _ => true) l = l.
Proof. induction l as [|x l IH]; simpl; [reflexivity|]. rewrite IH. reflexivity. Qed.




(** The search page: a query the search form rejects (no parameter at
    all, a table number that is not an integer, or a status outside the
    choices) returns every order unfiltered. A query with a non-zero table
    number and/or a status among the choices returns, in table order,
    exactly the orders matching every given filter. *)
Theorem order_search_cases s :
  (forall q, search_form_valid q = false -> order_search q s = orders s) /\
  (forall (tn : option Z) (st : option string),
     match tn with Some z => z <> 0 | None => True end ->
     match st with Some x => is_status_choice x = true | None => True end ->
     tn <> None \/ st <> None ->
     order_search (mkSearchQuery (option_map TInt tn) st) s =
     filter (fun o => match tn with Some z => Z.eqb (table_number o) z | None => true end &&
                      match st with Some x => String.eqb (status o) x | None => true end)
       (orders s)).
Proof.
  split.
  - intros q Hq. unfold order_search. rewrite Hq. reflexivity.
  - intros tn st Htn Hst Hne. unfold order_search, search_form_valid, cleaned_table, cleaned_status.
    destruct tn as [z|], st as [x|]; cbn [option_map sq_table sq_status] in *.
    + rewrite Hst, orb_true_r. apply Z.eqb_neq in Htn. cbn [andb]. rewrite Htn.
      destruct (String.eqb_spec x "") as [->|Hx]; [discriminate Hst|].
      apply filter_filter_and.
    + apply Z.eqb_neq in Htn. cbn [andb]. rewrite Htn. simpl.
      apply filter_ext. intros. rewrite andb_true_r. reflexivity.
    + rewrite Hst, orb_true_r. cbn [andb].
      destruct (String.eqb_spec x "") as [->|Hx]; [discriminate Hst|]. reflexivity.
    + exfalso. destruct Hne as [H|H]; apply H; reflexivity.
Qed.

Lemma order_search_cases_witness :
  order_search (mkSearchQuery (Some TJunk) (Some "paid")) search_store = orders search_store /\
  order_search (mkSearchQuery (Some (TInt 5)) (Some "paid")) search_store =
    filter (fun o => Z.eqb (table_number o) 5 && String.eqb (status o) "paid") (orders search_store).
Proof.
  split.
  - apply (proj1 (order_search_cases search_store)). reflexivity.
  - apply (proj2 (order_search_cases search_store) (Some 5) (Some "paid")).
    + discriminate.
    + reflexivity.
    + left. discriminate.
Defined.

(** ** Revenue under the views *)

Lemma zsum_shift (l : list Z) a : fold_left Z.add l a = a + fold_left Z.add l 0.
Proof.
  revert a. induction l as [|z l IH]; intros a; cbn [fold_left]; [lia|].
  rewrite (IH (a + z)), (IH (0 + z)). lia.
Qed.

Lemma pt_shift l a :
  fold_left (fun acc o => acc + paid_total o) l a =
  a + fold_left (fun acc o => acc + paid_total o) l 0.
Proof.
  revert a. induction l as [|x l IH]; intros a; cbn [fold_left]; [lia|].
  rewrite (IH (a + paid_total x)), (IH (0 + paid_total x)). lia.
Qed.

Lemma revenue_as_paid_total s :
  revenue_calculation s = fold_left (fun acc o => acc + paid_total o) (orders s) 0.
Proof.
  transitivity (fold_left Z.add (map total_price (paid_orders s)) 0).
  { unfold revenue_calculation.
    destruct (map total_price (paid_orders s)) as [|x rest]; simpl; [reflexivity|].
    destruct (Z.eqb (fold_left Z.add rest x) 0) eqn:E; [|reflexivity].
    apply Z.eqb_eq in E. rewrite E. reflexivity. }
  unfold paid_orders. induction (orders s) as [|x l IH]; [reflexivity|].
  cbn [filter fold_left]. rewrite pt_shift. unfold paid_total at 1.
  destruct (String.eqb (status x) "paid"); cbn [map fold_left].
  - rewrite zsum_shift, IH. lia.
  - rewrite IH. lia.
Qed.

Lemma revenue_orders s1 s : orders s1 = orders s -> revenue_calculation s1 = revenue_calculation s.
Proof. intros H. rewrite !revenue_as_paid_total, H. reflexivity. Qed.

Lemma pt_sum_replace l x y :
  NoDup (map order_id l) -> find (fun z => Nat.eqb (order_id z) (order_id x)) l = Some y ->
  fold_left (fun acc o => acc + paid_total o)
    (map (fun z => if Nat.eqb (order_id z) (order_id x) then x else z) l) 0 =
  fold_left (fun acc o => acc + paid_total o) l 0 - paid_total y + paid_total x.
Proof.
  induction l as [|z l IH]; cbn [map find]; [discriminate|].
  intros Hnd Hf. inversion Hnd as [|? ? Hz Hl]; subst. cbn [fold_left].
  destruct (Nat.eqb_spec (order_id z) (order_id x)) as [E|E].
  - injection Hf as <-.
    assert (Hrest : map (fun w => if Nat.eqb (order_id w) (order_id x) then x else w) l = l).
    { transitivity (map (fun w => w) l); [|apply map_id]. apply map_ext_in. intros w Hw.
      destruct (Nat.eqb_spec (order_id w) (order_id x)) as [E'|E']; [|reflexivity].
      exfalso. apply Hz. rewrite E, <- E'. apply in_map. exact Hw. }
    rewrite Hrest, (pt_shift l (0 + paid_total x)), (pt_shift l (0 + paid_total z)). lia.
  - rewrite (pt_shift _ (0 + paid_total z)), (pt_shift l (0 + paid_total z)), IH; auto. lia.
Qed.

Lemma pt_sum_delete l pk y :
  NoDup (map order_id l) -> find (fun z => Nat.eqb (order_id z) pk) l = Some y ->
  fold_left (fun acc o => acc + paid_total o)
    (filter (fun z => negb (Nat.eqb (order_id z) pk)) l) 0 =
  fold_left (fun acc o => acc + paid_total o) l 0 - paid_total y.
Proof.
  induction l as [|z l IH]; cbn [filter find]; [discriminate|].
  intros Hnd Hf. inversion Hnd as [|? ? Hz Hl]; subst.
  destruct (Nat.eqb_spec (order_id z) pk) as [E|E]; cbn [negb fold_left].
  - injection Hf as <-.
    assert (Hrest : filter (fun w => negb (Nat.eqb (order_id w) pk)) l = l).
    { transitivity (filter (fun _ => true) l); [|apply filter_all_true].
      apply filter_ext_in. intros w Hw.
      destruct (Nat.eqb_spec (order_id w) pk) as [E'|E']; [|reflexivity].
      exfalso. apply Hz. rewrite E, <- E'. apply in_map. exact Hw. }
    rewrite Hrest, (pt_shift l (0 + paid_total z)). lia.
  - rewrite (pt_shift _ (0 + paid_total z)), (pt_shift l (0 + paid_total z)), IH; auto. lia.
Qed.

Lemma revenue_write s x y :
  NoDup (map order_id (orders s)) -> find_order s (order_id x) = Some y ->
  revenue_calculation (write_order x s) = revenue_calculation s - paid_total y + paid_total x.
Proof.
  intros Hnd Hf. rewrite !revenue_as_paid_total. unfold write_order; cbn [orders].
  apply pt_sum_replace; assumption.
Qed.

Lemma revenue_status_store req o s :
  NoDup (map order_id (orders s)) -> find_order s (order_id o) = Some o ->
  revenue_calculation (status_store req o s) =
  revenue_calculation s - paid_total o + paid_total (applied_status req o).
Proof.
  intros Hnd Hf. unfold status_store, applied_status.
  destruct (status_change req); [destruct (truthy_str (ur_status req)) as [st|]|]; try lia.
  apply revenue_write; assumption.
Qed.

(** The views that change one existing order move the revenue by exactly
    that order's change: the update view and the remove-dish view when
    they return their redirect, and the API update whatever its outcome,
    change [revenue_calculation] by the stored total the order adds when
    paid after the request minus what it added before; the delete view
    takes the order's share away. Order keys are distinct, as a primary
    key's are. *)
Theorem revenue_moves_with_one_order s pk o :
  NoDup (map order_id (orders s)) -> find_order s pk = Some o ->
  (forall req s', order_update_post pk req s = (inr tt, s') ->
     exists o', find_order s' pk = Some o' /\
       revenue_calculation s' = revenue_calculation s - paid_total o + paid_total o') /\
  (forall did s', order_remove_dish_post pk did s = (inr tt, s') ->
     exists o', find_order s' pk = Some o' /\
       revenue_calculation s' = revenue_calculation s - paid_total o + paid_total o') /\
  (forall v, exists o', find_order (snd (api_update pk v s)) pk = Some o' /\
       revenue_calculation (snd (api_update pk v s)) =
         revenue_calculation s - paid_total o + paid_total o') /\
  revenue_calculation (snd (order_delete_get pk s)) = revenue_calculation s - paid_total o.
Proof.
  intros Hnd Hf. destruct (find_order_some _ _ _ Hf) as [Hid Hin].
  assert (Hfo : find_order s (order_id o) = Some o) by (rewrite Hid; exact Hf).
  split; [|split; [|split]].
  - intros req s' H.
    destruct (order_update_post_total _ _ _ _ H) as [o0 [Ho0 [Hf' _]]].
    rewrite Hf in Ho0. injection Ho0 as <-.
    eexists. split; [exact Hf'|].
    rewrite order_update_post_eq, Hf in H. cbv zeta in H.
    assert (Hfr := add_dishes_frame (applied_status req o) (ur_dishes req) (status_store req o s)).
    destruct (add_dishes (applied_status req o) (ur_dishes req) (status_store req o s))
      as [[e|u] s2]; [discriminate|].
    injection H as <-. simpl in Hfr. destruct Hfr as [Hos _].
    assert (Hnd2 : NoDup (map order_id (orders s2)))
      by (rewrite Hos, status_store_ids; exact Hnd).
    assert (Hf2 : find_order s2 (order_id (set_total (applied_status req o) (line_sum s2 (order_id (applied_status req o)))))
                  = Some (applied_status req o)).
    { cbn [order_id set_total]. rewrite applied_status_id, Hid.
      unfold find_order. rewrite Hos. apply find_order_status_store. exact Hf. }
    rewrite (revenue_write _ _ _ Hnd2 Hf2), (revenue_orders _ _ Hos),
      (revenue_status_store _ _ _ Hnd Hfo).
    rewrite applied_status_id, Hid.
    assert (Hls : line_sum (write_order (set_total (applied_status req o) (line_sum s2 pk)) s2) pk
                  = line_sum s2 pk) by reflexivity.
    rewrite Hls. unfold paid_total.
    change (status (set_total (applied_status req o) (line_sum s2 pk)))
      with (status (applied_status req o)).
    lia.
  - intros [did|] s' H.
    + destruct (order_remove_dish_post_total _ _ _ _ H) as [o0 [Ho0 Hf']].
      rewrite Hf in Ho0. injection Ho0 as <-.
      eexists. split; [exact Hf'|].
      rewrite order_remove_dish_post_eq, Hf in H.
      destruct (find_dish s did) as [d|]; [|discriminate].
      destruct (lines_for s (order_id o) (dish_id d)) as [|l [|l2 r]]; try discriminate.
      set (s1 := if Nat.ltb 1 (quantity l)
                 then write_line (set_quantity l (Nat.pred (quantity l))) s
                 else remove_line l s) in H.
      assert (Hos : orders s1 = orders s)
        by (unfold s1; destruct (Nat.ltb 1 (quantity l)); reflexivity).
      injection H as <-.
      assert (Hnd1 : NoDup (map order_id (orders s1))) by (rewrite Hos; exact Hnd).
      assert (Hf1 : find_order s1 (order_id (set_total o (line_sum s1 (order_id o)))) = Some o)
        by (unfold find_order; rewrite Hos; exact Hfo).
      rewrite (revenue_write _ _ _ Hnd1 Hf1), (revenue_orders _ _ Hos), Hid. reflexivity.
    + unfold order_remove_dish_post, bind, get_order_or_404 in H. rewrite Hf in H.
      injection H as <-. exists o. split; [exact Hf|lia].
  - intros v. rewrite api_update_eq, Hf.
    destruct (api_update_valid v).
    + eexists. split.
      * simpl snd. rewrite find_order_write_any, Hf. simpl. rewrite Nat.eqb_refl. reflexivity.
      * simpl snd. apply revenue_write; assumption.
    + exists o. split; [exact Hf|]. simpl snd. lia.
  - unfold order_delete_get, bind, get_order_or_404, modify. rewrite Hf. simpl snd.
    rewrite !revenue_as_paid_total. unfold delete_order; cbn [orders].
    rewrite Hid. apply pt_sum_delete; [exact Hnd|exact Hf].
Qed.

Lemma revenue_moves_with_one_order_witness :
  NoDup (map order_id (orders two_orders)) /\
  find_order two_orders 2 = Some (mkOrder 2 0 "pending" 0) /\
  revenue_calculation two_orders = 0 /\
  (exists o', find_order (snd (api_update 2 (mkApiUpdateData true None (Some "paid") None None) two_orders)) 2
                = Some o' /\
     revenue_calculation (snd (api_update 2 (mkApiUpdateData true None (Some "paid") None None) two_orders)) =
       revenue_calculation two_orders - paid_total (mkOrder 2 0 "pending" 0) + paid_total o').
Proof.
  assert (Hnd : NoDup (map order_id (orders two_orders))).
  { simpl. repeat constructor; simpl; intuition lia. }
  split; [exact Hnd|]. split; [reflexivity|]. split; [reflexivity|].
  exact (proj1 (proj2 (proj2 (revenue_moves_with_one_order two_orders 2%nat
                                 (mkOrder 2 0 "pending" 0) Hnd eq_refl)))
           (mkApiUpdateData true None (Some "paid") None None)).
Defined.
